(** * crash-python: register recovery for x86_64 and the device-mapper
    bio decoders

    A shallow embedding of [crash/arch/x86_64.py] and
    [crash/subsystem/storage/device_mapper.py].  The Python code runs
    inside gdb against a frozen memory image; the parts of gdb that the
    two files use (typed values, structure fields, pointer arithmetic,
    symbol and type lookup) are modelled in [Module gdb], Python's
    exceptions by an error type, and attribute assignment by explicit
    state passing. *)

From Stdlib Require Import ZArith List String Ascii Lia.
From Stdlib Require Import DecimalString HexadecimalString.
From stdpp Require Import base gmap strings list.

Local Open Scope Z_scope.
Local Open Scope string_scope.

(** ** Python exceptions and results *)

Inductive PyErr : Type :=
| AttributeError (name : string)
| KeyError (name : string)
| TypeError (what : string)
| ValueError (what : string)
| IndexError (what : string)
| GdbError (what : string)
| GdbMemoryError (addr : Z).

#[global] Instance PyErr_eq_dec : EqDecision PyErr.
Proof. solve_decision. Defined.

Inductive Result (A : Type) : Type :=
| Ok (a : A)
| Raise (e : PyErr).

Arguments Ok {A} a.
Arguments Raise {A} e.

#[global] Instance Result_eq_dec {A} `{EqDecision A} : EqDecision (Result A).
Proof. solve_decision. Defined.

(** The call came back with a value. *)
Definition returned {A} (r : Result A) : bool :=
  match r with
  | Ok _ => true
  | Raise _ => false
  end.

Definition rbind {A B} (m : Result A) (k : A -> Result B) : Result B :=
  match m with
  | Ok a => k a
  | Raise e => Raise e
  end.

Notation "'try' x <- m ; k" := (rbind m (fun x => k))
  (at level 10, x name, m at level 100, k at level 200).

(** A statement sequence that mutates a state of type [S] and may raise:
    the state reached so far survives the exception, as the attributes
    assigned before a [raise] do in Python. *)
Definition M (S A : Type) : Type := S -> S * Result A.

Definition ret {S A} (a : A) : M S A := fun s => (s, Ok a).

Definition raise {S A} (e : PyErr) : M S A := fun s => (s, Raise e).

Definition bind {S A B} (m : M S A) (k : A -> M S B) : M S B :=
  fun s =>
    match m s with
    | (s', Ok a) => k a s'
    | (s', Raise e) => (s', Raise e)
    end.

Definition lift {S A} (r : Result A) : M S A := fun s => (s, r).

Definition get {S} : M S S := fun s => (s, Ok s).

Definition modify {S} (f : S -> S) : M S unit := fun s => (f s, Ok tt).

Notation "'do' x <- m ; k" := (bind m (fun x => k))
  (at level 10, x name, m at level 100, k at level 200).

Notation "m ;; k" := (bind m (fun _ => k))
  (at level 100, k at level 200, right associativity).

(** [for x in xs: body(x)] *)
Fixpoint for_each {S A} (xs : list A) (body : A -> M S unit) : M S unit :=
  match xs with
  | [] => ret tt
  | x :: rest => body x ;; for_each rest body
  end.

(** A statement sequence keeps a property of the state, whether it
    returns or raises. *)
Definition keeps {S A} (P : S -> Prop) (m : M S A) : Prop :=
  forall s, P s -> P (m s).1.

(** ** The debugger: types, values and the memory image *)

Module gdb.

Inductive Type_ : Type :=
| Tvoid
| Tchar
| Tulong
| Tstruct (tag : string)
| Tptr (target : Type_).

#[global] Instance Type__eq_dec : EqDecision Type_.
Proof. solve_decision. Defined.

Record Field : Type := {
  f_name : string;
  f_offset : Z;
  f_type : Type_
}.

(** What one debugging session knows about the target: debug
    information ([structs], [types]), the minimal symbol table and the
    memory image, as 64-bit words by address.  Nothing in it changes
    during a session. *)
Record Target : Type := {
  structs : gmap string (list Field);
  types : gmap string Type_;
  minsyms : gmap string Z;
  memory : gmap Z Z
}.

(** A [gdb.Value]: an integer or pointer with its contents, or a
    structure that lives at an address of the image. *)
Inductive Value : Type :=
| Scalar (ty : Type_) (n : Z)
| Struct (tag : string) (addr : Z).

#[global] Instance Value_eq_dec : EqDecision Value.
Proof. solve_decision. Defined.

(** Addresses are 64 bits wide. *)
Definition wrap64 (z : Z) : Z := z mod 2 ^ 64.

Definition lookup_type (g : Target) (name : string) : Result Type_ :=
  match types g !! name with
  | Some t => Ok t
  | None => Raise (GdbError name)
  end.

(** [gdb.lookup_minimal_symbol] returns [None] for an unknown symbol. *)
Definition lookup_minimal_symbol (g : Target) (name : string) : option Z :=
  minsyms g !! name.

Definition pointer (t : Type_) : Type_ := Tptr t.

Definition target (t : Type_) : Result Type_ :=
  match t with
  | Tptr t' => Ok t'
  | _ => Raise (GdbError "type does not have a target")
  end.

Definition sizeof (t : Type_) : Z :=
  match t with
  | Tvoid | Tchar => 1
  | Tulong | Tptr _ => 8
  | Tstruct _ => 0
  end.

Definition fields (g : Target) (tag : string) : list Field :=
  default [] (structs g !! tag).

Definition find_field (g : Target) (tag name : string) : option Field :=
  find (fun f => bool_decide (f_name f = name)) (fields g tag).

(** [name in t]: field membership of a structure type. *)
Definition has_key (g : Target) (t : Type_) (name : string) : Result bool :=
  match t with
  | Tstruct tag => Ok (bool_decide (is_Some (find_field g tag name)))
  | _ => Raise (TypeError "type is not a structure")
  end.

Definition read_word (g : Target) (addr : Z) : Result Z :=
  match memory g !! addr with
  | Some w => Ok (wrap64 w)
  | None => Raise (GdbMemoryError addr)
  end.

(** The value of type [t] found at [addr].  The word is read here; gdb
    reads it when the value is first used.  The image does not change,
    so the word is the same, and an unreadable address raises either
    way. *)
Definition value_at (g : Target) (t : Type_) (addr : Z) : Result Value :=
  match t with
  | Tstruct tag => Ok (Struct tag addr)
  | Tvoid => Raise (GdbError "attempt to take contents of a non-pointer value")
  | _ => try w <- read_word g addr; Ok (Scalar t w)
  end.

(** [v[name]]; a pointer to a structure is followed. *)
Definition getitem (g : Target) (v : Value) (name : string) : Result Value :=
  let field_of tag addr :=
    match find_field g tag name with
    | Some f => value_at g (f_type f) (wrap64 (addr + f_offset f))
    | None => Raise (GdbError name)
    end in
  match v with
  | Struct tag addr => field_of tag addr
  | Scalar (Tptr (Tstruct tag)) addr => field_of tag addr
  | Scalar _ _ => Raise (GdbError "attempt to extract a component of a value that is not a structure")
  end.

(** [v.cast(t)] *)
Definition cast (v : Value) (t : Type_) : Result Value :=
  match v, t with
  | Scalar _ n, Tulong => Ok (Scalar t (wrap64 n))
  | Scalar _ n, Tptr _ => Ok (Scalar t (wrap64 n))
  | Scalar _ n, Tchar => Ok (Scalar t (n mod 256))
  | _, _ => Raise (GdbError "invalid cast")
  end.

(** [v.dereference()] *)
Definition dereference (g : Target) (v : Value) : Result Value :=
  match v with
  | Scalar (Tptr t) addr => value_at g t addr
  | _ => Raise (GdbError "attempt to take contents of a non-pointer value")
  end.

(** [v - k] for a pointer [v]: [k] elements of the pointed-to type. *)
Definition sub (v : Value) (k : Z) : Result Value :=
  match v with
  | Scalar (Tptr t) addr => Ok (Scalar (Tptr t) (wrap64 (addr - k * sizeof t)))
  | Scalar t n => Ok (Scalar t (wrap64 (n - k)))
  | Struct _ _ => Raise (GdbError "argument to arithmetic operation not a number")
  end.

(** [int(v)] *)
Definition to_int (v : Value) : Result Z :=
  match v with
  | Scalar _ n => Ok n
  | Struct _ _ => Raise (GdbError "cannot convert value to long")
  end.

End gdb.

(** ** crash/arch/x86_64.py *)

Module x86_64.

(** [thread.info]: the task behind a thread.  [regs] is a Python dict,
    kept in insertion order; [task_struct] is the kernel's
    [struct task_struct] of the task. *)
Record Task : Type := {
  regs : list (string * Z);
  task_struct : gdb.Value
}.

(** A thread with its register bank.  A register of the bank holds
    [None] until it is assigned.  [written] is not a Python attribute:
    it records every assignment to a register's [value], oldest first,
    so that statements about which registers an operation writes can be
    made. *)
Record Thread : Type := {
  info : Task;
  registers : gmap string (option Z);
  written : list (string * Z)
}.

Definition dict_keys {V} (d : list (string * V)) : list string := map fst d.

Fixpoint dict_get {V} (d : list (string * V)) (k : string) : option V :=
  match d with
  | [] => None
  | (k', v) :: rest => if bool_decide (k' = k) then Some v else dict_get rest k
  end.

(** [thread.registers[reg].value = v] *)
Definition set_register (reg : string) (v : Z) : M Thread unit :=
  fun th =>
    match registers th !! reg with
    | None => (th, Raise (KeyError reg))
    | Some _ =>
        ({| info := info th;
            registers := <[reg := Some v]> (registers th);
            written := written th ++ [(reg, v)] |}, Ok tt)
    end.

Record x86_64Architecture : Type := {
  rip : Z;
  ulong_type : gdb.Type_
}.

Definition ident : string := "i386:x86-64".
Definition aliases : list string := ["x86_64"].

Definition init (g : gdb.Target) : Result x86_64Architecture :=
  try rip <-
    match gdb.lookup_minimal_symbol g "thread_return" with
    | Some addr => Ok addr
    | None => Raise (AttributeError "value")
    end;
  try ulong_type <- gdb.lookup_type g "unsigned long";
  Ok {| rip := rip; ulong_type := ulong_type |}.

Definition excluded : list string := ["gs_base"; "orig_ax"; "rflags"; "fs_base"].

Definition setup_thread_active (self : x86_64Architecture) : M Thread unit :=
  do thread <- get;
  let task := info thread in
  for_each (dict_keys (regs task)) (fun reg =>
    if bool_decide (reg ∈ excluded) then ret tt
    else
      match dict_get (regs task) reg with
      | Some v => set_register reg v
      | None => raise (KeyError reg)
      end).

Definition setup_thread_scheduled (g : gdb.Target) (self : x86_64Architecture)
  : M Thread unit :=
  let ulong_type := ulong_type self in
  do thread <- get;
  let task := task_struct (info thread) in
  do rsp <- lift (try th <- gdb.getitem g task "thread";
                  try sp <- gdb.getitem g th "sp";
                  gdb.cast sp (gdb.pointer ulong_type));
  do rbp <- lift (try w <- gdb.dereference g rsp;
                  gdb.cast w (gdb.pointer ulong_type));
  do rbx <- lift (try p <- gdb.sub rbp 1; gdb.dereference g p);
  do r12 <- lift (try p <- gdb.sub rbp 2; gdb.dereference g p);
  do r13 <- lift (try p <- gdb.sub rbp 3; gdb.dereference g p);
  do r14 <- lift (try p <- gdb.sub rbp 4; gdb.dereference g p);
  do r15 <- lift (try p <- gdb.sub rbp 5; gdb.dereference g p);
  do rsp_v <- lift (gdb.to_int rsp);
  do rbp_v <- lift (gdb.to_int rbp);
  do rbx_v <- lift (gdb.to_int rbx);
  do r12_v <- lift (gdb.to_int r12);
  do r13_v <- lift (gdb.to_int r13);
  do r14_v <- lift (gdb.to_int r14);
  do r15_v <- lift (gdb.to_int r15);
  set_register "rsp" rsp_v ;;
  set_register "rbp" rbp_v ;;
  set_register "rip" (rip self) ;;
  set_register "rbx" rbx_v ;;
  set_register "r12" r12_v ;;
  set_register "r13" r13_v ;;
  set_register "r14" r14_v ;;
  set_register "r15" r15_v ;;
  set_register "cs" (2 * 8) ;;
  set_register "ss" (3 * 8).

(** *** Vocabulary for statements about the two operations *)

(** The ten registers [setup_thread_scheduled] assigns, in order. *)
Definition scheduled_registers : list string :=
  ["rsp"; "rbp"; "rip"; "rbx"; "r12"; "r13"; "r14"; "r15"; "cs"; "ss"].

(** What has to be readable for [setup_thread_scheduled] to get through:
    the saved stack pointer [sp] in the task, the word [fp] it points
    to, and the five words below [fp]. *)
Definition parked (g : gdb.Target) (th : Thread) (sp fp rbx r12 r13 r14 r15 : Z)
  : Prop :=
  (exists ty,
     (try t <- gdb.getitem g (task_struct (info th)) "thread";
      gdb.getitem g t "sp") = Ok (gdb.Scalar ty sp)) /\
  gdb.read_word g sp = Ok fp /\
  gdb.read_word g (gdb.wrap64 (fp - 1 * 8)) = Ok rbx /\
  gdb.read_word g (gdb.wrap64 (fp - 2 * 8)) = Ok r12 /\
  gdb.read_word g (gdb.wrap64 (fp - 3 * 8)) = Ok r13 /\
  gdb.read_word g (gdb.wrap64 (fp - 4 * 8)) = Ok r14 /\
  gdb.read_word g (gdb.wrap64 (fp - 5 * 8)) = Ok r15.

(** The bank has the registers [rs]. *)
Definition has_registers (th : Thread) (rs : list string) : Prop :=
  Forall (fun r => is_Some (registers th !! r)) rs.

(** The values assigned to register [r] in a sequence of assignments. *)
Fixpoint writes_to (r : string) (ws : list (string * Z)) : list Z :=
  match ws with
  | [] => []
  | (k, v) :: rest =>
      if bool_decide (k = r) then v :: writes_to r rest else writes_to r rest
  end.

(** The items of a snapshot that are not on the exclusion list. *)
Fixpoint copied (d : list (string * Z)) : list (string * Z) :=
  match d with
  | [] => []
  | (k, v) :: rest =>
      if bool_decide (k ∈ excluded) then copied rest else (k, v) :: copied rest
  end.

(** The bank after a sequence of assignments. *)
Definition assign (m : gmap string (option Z)) (ws : list (string * Z))
  : gmap string (option Z) :=
  foldl (fun m p => <[p.1 := Some p.2]> m) m ws.

End x86_64.

(** ** Python objects: instance and class attributes *)

Module py.

Inductive PyVal : Type :=
| PyNone
| PyStr (s : string)
| PyInt (n : Z)
| PyValue (v : gdb.Value)
| PyTypes (declared : list gdb.Type_)
| PyFunction (name : string)
| PyMethod (name : string).

#[global] Instance PyVal_eq_dec : EqDecision PyVal.
Proof. solve_decision. Defined.

(** An instance: its class and its own [__dict__].  A [PyMethod] held
    in the dict is a method bound to the instance that holds it. *)
Record Object : Type := {
  class_ : string;
  dict : gmap string PyVal
}.

#[global] Instance Object_eq_dec : EqDecision Object.
Proof. solve_decision. Defined.

(** What outlives an instance: the class namespaces.  [probes] is not a
    Python object: it records, oldest first, every evaluation of a
    field-membership test [name in type]. *)
Record World : Type := {
  classes : gmap string (gmap string PyVal);
  probes : list (gdb.Type_ * string)
}.

#[global] Instance World_eq_dec : EqDecision World.
Proof. solve_decision. Defined.

(** The state a method body runs in. *)
Record Frame : Type := {
  world : World;
  self : Object
}.

#[global] Instance Frame_eq_dec : EqDecision Frame.
Proof. solve_decision. Defined.

(** Every decoder class derives from [Decoder] alone. *)
Definition mro (cls : string) : list string := [cls; "Decoder"].

Fixpoint class_lookup (cs : gmap string (gmap string PyVal))
  (chain : list string) (name : string) : option PyVal :=
  match chain with
  | [] => None
  | c :: rest =>
      match cs !! c ≫= (fun ns => ns !! name) with
      | Some v => Some v
      | None => class_lookup cs rest name
      end
  end.

(** [self.name]: the instance's own attribute if it has one, else the
    class attribute (a function found there comes back bound), else
    [AttributeError]. *)
Definition getattr (name : string) : M Frame PyVal :=
  fun fr =>
    match dict (self fr) !! name with
    | Some v => (fr, Ok v)
    | None =>
        match class_lookup (classes (world fr)) (mro (class_ (self fr))) name with
        | Some (PyFunction f) => (fr, Ok (PyMethod f))
        | Some v => (fr, Ok v)
        | None => (fr, Raise (AttributeError name))
        end
    end.

(** [self.name = v]: always the instance's own attribute. *)
Definition setattr (name : string) (v : PyVal) : M Frame unit :=
  modify (fun fr =>
    {| world := world fr;
       self := {| class_ := class_ (self fr);
                  dict := <[name := v]> (dict (self fr)) |} |}).

Definition as_value (v : PyVal) : Result gdb.Value :=
  match v with
  | PyValue x => Ok x
  | _ => Raise (TypeError "not a gdb.Value")
  end.

Definition getattr_value (name : string) : M Frame gdb.Value :=
  do v <- getattr name; lift (as_value v).

(** [name in t], recorded in [probes]. *)
Definition contains (g : gdb.Target) (t : gdb.Type_) (name : string)
  : M Frame bool :=
  modify (fun fr =>
    {| world := {| classes := classes (world fr);
                   probes := probes (world fr) ++ [(t, name)] |};
       self := self fr |}) ;;
  lift (gdb.has_key g t name).

(** *** [str.format] for the two replacement fields the templates use *)

Definition str_of_int (n : Z) : string :=
  DecimalString.NilZero.string_of_int (Z.to_int n).

Definition hex_of_int (n : Z) : string :=
  HexadecimalString.NilZero.string_of_int (Z.to_hex_int n).

Fixpoint format (tmpl : string) (args : list PyVal) : Result string :=
  match tmpl with
  | EmptyString => Ok EmptyString
  | String "{" (String "}" rest) =>
      match args with
      | PyInt n :: args' => try r <- format rest args'; Ok (str_of_int n +:+ r)
      | PyStr s :: args' => try r <- format rest args'; Ok (s +:+ r)
      | _ :: _ => Raise (TypeError "unsupported format argument")
      | [] => Raise (IndexError "replacement index out of range")
      end
  | String "{" (String ":" (String "x" (String "}" rest))) =>
      match args with
      | PyInt n :: args' => try r <- format rest args'; Ok (hex_of_int n +:+ r)
      | _ :: _ => Raise (ValueError "unknown format code x")
      | [] => Raise (IndexError "replacement index out of range")
      end
  | String "{" _ => Raise (ValueError "unsupported replacement field")
  | String "}" _ => Raise (ValueError "single } encountered in format string")
  | String c rest => try r <- format rest args; Ok (String c r)
  end.

End py.
(** ** crash/subsystem/storage/device_mapper.py *)

Module device_mapper.
Import py.

(** The collaborators the decoders call: the debugger's view of the
    target, [crash.subsystem.storage.block_device_name] and
    [crash.subsystem.storage.decoders.decode_bio].  [decode_bio] builds
    the decoder of the ancestor bio, so it may act on the class
    namespaces; it never sees the decoder that calls it. *)
Record Env : Type := {
  target : gdb.Target;
  block_device_name : gdb.Value -> Result string;
  decode_bio : gdb.Value -> M World Object
}.

(** Modelled from the spec: the helper [Types] of [crash.util.symbols]
    is not among the sources.  [Types(names)] offers one attribute per
    declared C type name, [T_type] for [struct T] and [T_p_type] for
    [struct T *], as the two classes use it; reading it resolves the
    type by name in the debug information.  An attribute that was not
    declared does not exist. *)
Definition attrname (t : gdb.Type_) : option string :=
  match t with
  | gdb.Tstruct tag => Some (tag +:+ "_type")
  | gdb.Tptr (gdb.Tstruct tag) => Some (tag +:+ "_p_type")
  | _ => None
  end.

Definition resolved (g : gdb.Target) (t : gdb.Type_) : bool :=
  match t with
  | gdb.Tstruct tag | gdb.Tptr (gdb.Tstruct tag) =>
      bool_decide (is_Some (gdb.structs g !! tag))
  | _ => true
  end.

Definition Types_getattr (g : gdb.Target) (types : PyVal) (name : string)
  : Result gdb.Type_ :=
  match types with
  | PyTypes declared =>
      match find (fun t => bool_decide (attrname t = Some name)) declared with
      | Some t => if resolved g t then Ok t else Raise (GdbError name)
      | None => Raise (AttributeError name)
      end
  | _ => Raise (AttributeError name)
  end.

(** Modelled from the spec: [crash.util.container_of] is not among the
    sources; it computes an enclosing structure's address from a pointer
    to one of its embedded fields. *)
Definition container_of (g : gdb.Target) (val : gdb.Value)
  (gdbtype : gdb.Type_) (member : string) : Result gdb.Value :=
  try addr <-
    match val with
    | gdb.Scalar (gdb.Tptr _) a => Ok a
    | gdb.Struct _ a => Ok a
    | gdb.Scalar _ _ => Raise (GdbError "value has no address")
    end;
  try tag <-
    match gdbtype with
    | gdb.Tstruct tag | gdb.Tptr (gdb.Tstruct tag) => Ok tag
    | _ => Raise (TypeError "not a structure type")
    end;
  match gdb.find_field g tag member with
  | Some f => Ok (gdb.Struct tag (gdb.wrap64 (addr - gdb.f_offset f)))
  | None => Raise (GdbError member)
  end.

(** Modelled from the spec: the base class [Decoder] of
    [crash.subsystem.storage.decoders] is not among the sources.  Its
    namespace holds none of the attributes the subclasses derive, its
    constructor assigns none of them, and it has no fallback for a
    missing attribute: a decoder is uninitialised before interpretation. *)
Definition Decoder_class : gmap string PyVal := ∅.

Definition Decoder__init__ : M Frame unit := ret tt.

Definition ClonedBioReqDecoder_class : gmap string PyVal :=
  list_to_map [
    ("_types", PyTypes [gdb.Tptr (gdb.Tstruct "dm_rq_clone_bio_info")]);
    ("__endio__", PyStr "end_clone_bio");
    ("_description", PyStr "{:x} bio: Request-based Device Mapper on {}");
    ("_get_clone_bio_rq_info", PyNone);
    ("_get_clone_bio_rq_info_old", PyFunction "_get_clone_bio_rq_info_old");
    ("_get_clone_bio_rq_info_3_7", PyFunction "_get_clone_bio_rq_info_3_7")
  ].

Definition ClonedBioDecoder_class : gmap string PyVal :=
  list_to_map [
    ("_types", PyTypes [gdb.Tptr (gdb.Tstruct "dm_target_io")]);
    ("_get_clone_bio_tio", PyNone);
    ("__endio__", PyStr "clone_endio");
    ("_description", PyStr "{:x} bio: device mapper clone: {}[{}] -> {}[{}]");
    ("_get_clone_bio_tio_old", PyFunction "_get_clone_bio_tio_old");
    ("_get_clone_bio_tio_3_15", PyFunction "_get_clone_bio_tio_3_15")
  ].

(** The class namespaces once the module is imported. *)
Definition loaded : World :=
  {| classes := list_to_map [
       ("Decoder", Decoder_class);
       ("ClonedBioReqDecoder", ClonedBioReqDecoder_class);
       ("ClonedBioDecoder", ClonedBioDecoder_class)
     ];
     probes := [] |}.

Definition is_none (v : PyVal) : bool :=
  match v with
  | PyNone => true
  | _ => false
  end.

(** A call of [decode_bio]: it runs on the class namespaces. *)
Definition call_decode_bio (env : Env) (bio : gdb.Value) : M Frame Object :=
  fun fr =>
    match decode_bio env bio (world fr) with
    | (w, r) => ({| world := w; self := self fr |}, r)
    end.

Section Decoders.

Variable env : Env.

Abbreviation g := (target env).

(** *** class ClonedBioReqDecoder *)

Definition _get_clone_bio_rq_info_old (bio : gdb.Value) : M Frame gdb.Value :=
  do private <- lift (gdb.getitem g bio "bi_private");
  do types <- getattr "_types";
  do t <- lift (Types_getattr g types "dm_rq_clone_bio_info_p_type");
  lift (gdb.cast private t).

Definition _get_clone_bio_rq_info_3_7 (bio : gdb.Value) : M Frame gdb.Value :=
  do types <- getattr "_types";
  do t <- lift (Types_getattr g types "dm_rq_clone_bio_info_p_type");
  lift (container_of g bio t "clone").

Definition ClonedBioReqDecoder__init__ (bio : gdb.Value) : M Frame unit :=
  Decoder__init__ ;;
  setattr "bio" (PyValue bio) ;;
  do current <- getattr "_get_clone_bio_rq_info";
  if is_none current then
    do types <- getattr "_types";
    do t <- lift (Types_getattr g types "dm_rq_clone_bio_info_p_type");
    do st <- lift (gdb.target t);
    do has_clone <- contains g st "clone";
    do getter <-
      (if has_clone : bool then getattr "_get_clone_bio_rq_info_3_7"
       else getattr "_get_clone_bio_rq_info_old");
    setattr "_get_clone_bio_rq_info" getter
  else ret tt.

(** [f(bio)] for the attribute [_get_clone_bio_rq_info]. *)
Definition call_rq_info (f : PyVal) (bio : gdb.Value) : M Frame gdb.Value :=
  match f with
  | PyMethod name =>
      if bool_decide (name = "_get_clone_bio_rq_info_old")
      then _get_clone_bio_rq_info_old bio
      else if bool_decide (name = "_get_clone_bio_rq_info_3_7")
      then _get_clone_bio_rq_info_3_7 bio
      else raise (AttributeError name)
  | _ => raise (TypeError "object is not callable")
  end.

Definition ClonedBioReqDecoder_interpret : M Frame unit :=
  do f <- getattr "_get_clone_bio_rq_info";
  do bio <- getattr_value "bio";
  do info <- call_rq_info f bio;
  setattr "info" (PyValue info) ;;
  do info' <- getattr_value "info";
  do tio <- lift (gdb.getitem g info' "tio");
  setattr "tio" (PyValue tio).

(** The body has no [return]: the formatted string is dropped and the
    method returns [None]. *)
Definition ClonedBioReqDecoder__str__ : M Frame PyVal :=
  do description <- getattr "_description";
  do bio <- getattr_value "bio";
  do addr <- lift (gdb.to_int bio);
  do bio' <- getattr_value "bio";
  do bdev <- lift (gdb.getitem g bio' "bi_bdev");
  do name <- lift (block_device_name env bdev);
  do _s <-
    lift (match description with
          | PyStr tmpl => format tmpl [PyInt addr; PyStr name]
          | _ => Raise (AttributeError "format")
          end);
  ret PyNone.

Definition ClonedBioReqDecoder__next__ : M Frame Object :=
  do info <- getattr_value "info";
  do orig <- lift (gdb.getitem g info "orig");
  call_decode_bio env orig.

(** *** class ClonedBioDecoder *)

Definition _get_clone_bio_tio_old (bio : gdb.Value) : M Frame gdb.Value :=
  do private <- lift (gdb.getitem g bio "bi_private");
  do types <- getattr "_types";
  do t <- lift (Types_getattr g types "dm_target_io_p_type");
  lift (gdb.cast private t).

Definition _get_clone_bio_tio_3_15 (bio : gdb.Value) : M Frame gdb.Value :=
  do private <- lift (gdb.getitem g bio "bi_private");
  do types <- getattr "_types";
  do t <- lift (Types_getattr g types "dm_clone_bio_info_p_type");
  lift (container_of g private t "clone").

Definition ClonedBioDecoder__init__ (bio : gdb.Value) : M Frame unit :=
  Decoder__init__ ;;
  setattr "bio" (PyValue bio) ;;
  do current <- getattr "_get_clone_bio_tio";
  if is_none current then
    do types <- getattr "_types";
    do t <- lift (Types_getattr g types "dm_target_io_p_type");
    do st <- lift (gdb.target t);
    do has_clone <- contains g st "clone";
    do getter <-
      (if has_clone : bool then getattr "_get_clone_bio_tio_3_15"
       else getattr "_get_clone_bio_tio_old");
    setattr "_get_clone_bio_tio" getter
  else ret tt.

(** [f(bio)] for the attribute [_get_clone_bio_tio]. *)
Definition call_tio (f : PyVal) (bio : gdb.Value) : M Frame gdb.Value :=
  match f with
  | PyMethod name =>
      if bool_decide (name = "_get_clone_bio_tio_old")
      then _get_clone_bio_tio_old bio
      else if bool_decide (name = "_get_clone_bio_tio_3_15")
      then _get_clone_bio_tio_3_15 bio
      else raise (AttributeError name)
  | _ => raise (TypeError "object is not callable")
  end.

Definition ClonedBioDecoder_interpret : M Frame unit :=
  do f <- getattr "_get_clone_bio_tio";
  do bio <- getattr_value "bio";
  do tio <- call_tio f bio;
  setattr "tio" (PyValue tio) ;;
  do tio' <- getattr_value "tio";
  do io <- lift (gdb.getitem g tio' "io");
  do next_bio <- lift (gdb.getitem g io "bio");
  setattr "next_bio" (PyValue next_bio).

Definition ClonedBioDecoder__str__ : M Frame PyVal :=
  do description <- getattr "_description";
  do bio <- getattr_value "bio";
  do addr <- lift (gdb.to_int bio);
  do bio1 <- getattr_value "bio";
  do bdev <- lift (gdb.getitem g bio1 "bi_bdev");
  do name <- lift (block_device_name env bdev);
  do bio2 <- getattr_value "bio";
  do sector_v <- lift (gdb.getitem g bio2 "bi_sector");
  do sector <- lift (gdb.to_int sector_v);
  do next1 <- getattr_value "next_bio";
  do next_bdev <- lift (gdb.getitem g next1 "bi_bdev");
  do next_name <- lift (block_device_name env next_bdev);
  do next2 <- getattr_value "next_bio";
  do next_sector_v <- lift (gdb.getitem g next2 "bi_sector");
  do next_sector <- lift (gdb.to_int next_sector_v);
  do s <-
    lift (match description with
          | PyStr tmpl =>
              format tmpl [PyInt addr; PyStr name; PyInt sector;
                           PyStr next_name; PyInt next_sector]
          | _ => Raise (AttributeError "format")
          end);
  ret (PyStr s).

Definition ClonedBioDecoder__next__ : M Frame Object :=
  do next_bio <- getattr_value "next_bio";
  call_decode_bio env next_bio.

(** *** Using the classes *)

Inductive Variant : Type :=
| RequestBased
| BioBased.

Definition class_name (v : Variant) : string :=
  match v with
  | RequestBased => "ClonedBioReqDecoder"
  | BioBased => "ClonedBioDecoder"
  end.

Definition __init__ (v : Variant) : gdb.Value -> M Frame unit :=
  match v with
  | RequestBased => ClonedBioReqDecoder__init__
  | BioBased => ClonedBioDecoder__init__
  end.

(** [cls(bio)]: a new instance with an empty [__dict__], initialised by
    [__init__]; the caller gets the instance only if that returns. *)
Definition new (v : Variant) (bio : gdb.Value) : M World Object :=
  fun w =>
    match __init__ v bio {| world := w;
                            self := {| class_ := class_name v; dict := ∅ |} |} with
    | (fr, Ok _) => (world fr, Ok (self fr))
    | (fr, Raise e) => (world fr, Raise e)
    end.

Definition interpret (v : Variant) : M Frame unit :=
  match v with
  | RequestBased => ClonedBioReqDecoder_interpret
  | BioBased => ClonedBioDecoder_interpret
  end.

Definition __str__ (v : Variant) : M Frame PyVal :=
  match v with
  | RequestBased => ClonedBioReqDecoder__str__
  | BioBased => ClonedBioDecoder__str__
  end.

Definition __next__ (v : Variant) : M Frame Object :=
  match v with
  | RequestBased => ClonedBioReqDecoder__next__
  | BioBased => ClonedBioDecoder__next__
  end.

(** The operations a caller applies to a decoder it holds. *)
Inductive Op : Type :=
| Interpret
| Describe
| Advance.

(** One operation on the decoder; an exception it raises is the
    caller's to handle and leaves the decoder as the operation left it. *)
Definition step (v : Variant) (op : Op) (fr : Frame) : Frame :=
  match op with
  | Interpret => fst (interpret v fr)
  | Describe => fst (__str__ v fr)
  | Advance => fst (__next__ v fr)
  end.

Definition run (v : Variant) (ops : list Op) (fr : Frame) : Frame :=
  foldl (fun fr op => step v op fr) fr ops.

End Decoders.

(** *** Vocabulary for statements about the decoders *)

(** A statement sequence keeps a property of the frame, whether it
    returns or raises. *)
Definition preserves {A} (P : Frame -> Prop) (m : M Frame A) : Prop :=
  forall fr, P fr -> P (m fr).1.

(** A property of the decoder alone, whatever the class namespaces and
    the probe record are. *)
Definition of_self (Q : Object -> Prop) (fr : Frame) : Prop := Q (self fr).

(** The attribute [name] of the decoder holds [v]. *)
Definition holds (name : string) (v : PyVal) (o : Object) : Prop :=
  dict o !! name = Some v.

(** The attributes a constructor assigns. *)
Definition init_attrs : list string :=
  ["bio"; "_get_clone_bio_rq_info"; "_get_clone_bio_tio"].

(** A decoder of class [cls] on which [interpret] has not run: it has
    no attribute of its own but those of the constructor, and the
    class namespaces are [cs]. *)
Definition uninterpreted (cs : gmap string (gmap string PyVal)) (cls : string)
  (fr : Frame) : Prop :=
  classes (world fr) = cs /\
  class_ (self fr) = cls /\
  forall k, k ∉ init_attrs -> dict (self fr) !! k = None.

(** The attribute a variant's [advance] reads first. *)
Definition advance_reads (v : Variant) : string :=
  match v with
  | RequestBased => "info"
  | BioBased => "next_bio"
  end.

(** The structure type whose layout a variant probes. *)
Definition probed_struct (v : Variant) : string :=
  match v with
  | RequestBased => "dm_rq_clone_bio_info"
  | BioBased => "dm_target_io"
  end.

(** The attribute in which a variant's constructor keeps its getter,
    and the two getters it chooses from. *)
Definition getter_attr (v : Variant) : string :=
  match v with
  | RequestBased => "_get_clone_bio_rq_info"
  | BioBased => "_get_clone_bio_tio"
  end.

Definition old_getter (v : Variant) : string :=
  match v with
  | RequestBased => "_get_clone_bio_rq_info_old"
  | BioBased => "_get_clone_bio_tio_old"
  end.

Definition new_getter (v : Variant) : string :=
  match v with
  | RequestBased => "_get_clone_bio_rq_info_3_7"
  | BioBased => "_get_clone_bio_tio_3_15"
  end.

(** A decoder of class [cls] without an attribute [name] of its own,
    in a session whose class namespaces are [cs]. *)
Definition without_attr (cs : gmap string (gmap string PyVal))
  (cls name : string) (fr : Frame) : Prop :=
  classes (world fr) = cs /\
  class_ (self fr) = cls /\
  dict (self fr) !! name = None.

(** A statement sequence keeps a property of the frame when it raises. *)
Definition raise_keeps {A} (P : Frame -> Prop) (m : M Frame A) : Prop :=
  forall fr fr' e, P fr -> m fr = (fr', Raise e) -> P fr'.

(** Two frames that differ at most in the decoder's attributes [K]. *)
Definition agree_off (K : list string) (fr fr1 : Frame) : Prop :=
  world fr1 = world fr /\
  class_ (self fr1) = class_ (self fr) /\
  forall k, k ∉ K -> dict (self fr1) !! k = dict (self fr) !! k.

(** A statement sequence that assigns nothing and whose outcome does
    not depend on the decoder's attributes [K]. *)
Definition reads_off {A} (K : list string) (m : M Frame A) : Prop :=
  forall fr fr1, agree_off K fr fr1 ->
    (m fr).1 = fr /\ (m fr1).1 = fr1 /\ (m fr1).2 = (m fr).2.

(** The attributes a variant's [interpret] assigns. *)
Definition derived_attrs (v : Variant) : list string :=
  match v with
  | RequestBased => ["info"; "tio"]
  | BioBased => ["tio"; "next_bio"]
  end.

(** The attribute a variant's [interpret] assigns last. *)
Definition last_derived (v : Variant) : string :=
  match v with
  | RequestBased => "tio"
  | BioBased => "next_bio"
  end.

End device_mapper.

(** ** A small memory image to run the code on *)

Module samples.
Import py.

Definition fld (name : string) (offset : Z) (t : gdb.Type_) : gdb.Field :=
  {| gdb.f_name := name; gdb.f_offset := offset; gdb.f_type := t |}.

Definition struct_bio : list gdb.Field :=
  [fld "bi_sector" 0 gdb.Tulong;
   fld "bi_bdev" 8 (gdb.Tptr (gdb.Tstruct "block_device"));
   fld "bi_end_io" 16 (gdb.Tptr gdb.Tvoid);
   fld "bi_private" 24 (gdb.Tptr gdb.Tvoid)].

(** Structure layouts of a kernel whose device-mapper tracking
    structures do not embed the clone. *)
Definition structs_old : gmap string (list gdb.Field) :=
  list_to_map [
    ("task_struct", [fld "state" 0 gdb.Tulong;
                     fld "thread" 64 (gdb.Tstruct "thread_struct")]);
    ("thread_struct", [fld "sp0" 0 gdb.Tulong; fld "sp" 8 gdb.Tulong]);
    ("bio", struct_bio);
    ("block_device", [fld "bd_dev" 0 gdb.Tulong]);
    ("dm_rq_clone_bio_info",
       [fld "orig" 0 (gdb.Tptr (gdb.Tstruct "bio"));
        fld "tio" 8 (gdb.Tptr (gdb.Tstruct "dm_rq_target_io"))]);
    ("dm_rq_target_io", [fld "md" 0 (gdb.Tptr gdb.Tvoid)]);
    ("dm_target_io",
       [fld "io" 0 (gdb.Tptr (gdb.Tstruct "dm_io"));
        fld "ti" 8 (gdb.Tptr gdb.Tvoid)]);
    ("dm_io", [fld "md" 0 (gdb.Tptr gdb.Tvoid);
               fld "bio" 24 (gdb.Tptr (gdb.Tstruct "bio"))])
  ].

(** The same kernel with the clone embedded in both tracking structures. *)
Definition structs_new : gmap string (list gdb.Field) :=
  <["dm_rq_clone_bio_info" :=
      [fld "orig" 0 (gdb.Tptr (gdb.Tstruct "bio"));
       fld "tio" 8 (gdb.Tptr (gdb.Tstruct "dm_rq_target_io"));
       fld "clone" 16 (gdb.Tstruct "bio")]]>
  (<["dm_target_io" :=
      [fld "io" 0 (gdb.Tptr (gdb.Tstruct "dm_io"));
       fld "ti" 8 (gdb.Tptr gdb.Tvoid);
       fld "clone" 16 (gdb.Tstruct "bio")]]> structs_old).

Definition words : gmap Z Z :=
  list_to_map [
    (* task_struct at 0x10000: thread.sp *)
    (0x10048, 0x20000);
    (* the stack of the task *)
    (0x20000, 0x20100);
    (0x200f8, 11); (0x200f0, 12); (0x200e8, 13); (0x200e0, 14); (0x200d8, 15);
    (* the clone bio at 0x1000 *)
    (0x1000, 8); (0x1008, 0x5000); (0x1010, 0x7000); (0x1018, 0x2000);
    (* what its private field points to at 0x2000: read as a
       dm_rq_clone_bio_info (orig, tio) or as a dm_target_io (io, ti) *)
    (0x2000, 0x3000); (0x2008, 0x6000);
    (* at 0x3000: read as the ancestor bio or as a dm_io (md, ..., bio) *)
    (0x3000, 2056); (0x3008, 0x5100); (0x3018, 0x4000);
    (* the ancestor bio at 0x4000 *)
    (0x4000, 4104); (0x4008, 0x5100)
  ].

Definition image_old : gdb.Target :=
  {| gdb.structs := structs_old;
     gdb.types := {["unsigned long" := gdb.Tulong]};
     gdb.minsyms := {["thread_return" := 0xffffffff81501000]};
     gdb.memory := words |}.

Definition image_new : gdb.Target :=
  {| gdb.structs := structs_new;
     gdb.types := gdb.types image_old;
     gdb.minsyms := gdb.minsyms image_old;
     gdb.memory := words |}.

Definition arch : x86_64.x86_64Architecture :=
  {| x86_64.rip := 0xffffffff81501000; x86_64.ulong_type := gdb.Tulong |}.

Definition bank : gmap string (option Z) :=
  list_to_map (map (fun r => (r, None))
    ["rax"; "rbx"; "rcx"; "rdx"; "rsi"; "rdi"; "rbp"; "rsp";
     "r8"; "r9"; "r10"; "r11"; "r12"; "r13"; "r14"; "r15";
     "rip"; "eflags"; "cs"; "ss"; "ds"; "es"; "fs"; "gs"]).

Definition task : x86_64.Task :=
  {| x86_64.regs := [("rax", 1); ("rip", 0xffffffff81000010); ("rflags", 0x246);
                     ("gs_base", 0xffff88003fc00000); ("rsp", 0x20040);
                     ("orig_ax", 59); ("cs", 16)];
     x86_64.task_struct := gdb.Struct "task_struct" 0x10000 |}.

Definition thread : x86_64.Thread :=
  {| x86_64.info := task; x86_64.registers := bank; x86_64.written := [] |}.

Definition bio : gdb.Value := gdb.Scalar (gdb.Tptr (gdb.Tstruct "bio")) 0x1000.

Definition device_names (bdev : gdb.Value) : Result string :=
  match bdev with
  | gdb.Scalar _ 0x5000 => Ok "dm-0"
  | gdb.Scalar _ 0x5100 => Ok "sda"
  | _ => Raise (GdbError "no such device")
  end.

(** A [decode_bio] that wraps every bio in a generic decoder. *)
Definition decode_generic (b : gdb.Value) : M World Object :=
  ret {| class_ := "GenericBioDecoder"; dict := {["bio" := PyValue b]} |}.

Definition env_old : device_mapper.Env :=
  {| device_mapper.target := image_old;
     device_mapper.block_device_name := device_names;
     device_mapper.decode_bio := decode_generic |}.

Definition env_new : device_mapper.Env :=
  {| device_mapper.target := image_new;
     device_mapper.block_device_name := device_names;
     device_mapper.decode_bio := decode_generic |}.

(** Two decoders of one variant built one after the other. *)
Definition construct_twice (env : device_mapper.Env) (v : device_mapper.Variant)
  : M World (Object * Object) :=
  do d1 <- device_mapper.new env v bio;
  do d2 <- device_mapper.new env v bio;
  ret (d1, d2).

(** The class namespaces and the decoder after [cls(bio)]. *)
Definition built (env : device_mapper.Env) (v : device_mapper.Variant)
  : Frame :=
  let r := device_mapper.new env v bio device_mapper.loaded in
  {| world := r.1;
     self := match r.2 with
             | Ok d => d
             | Raise _ => {| class_ := ""; dict := ∅ |}
             end |}.

(** A decoder that is built and then interpreted. *)
Definition interpreted (env : device_mapper.Env) (v : device_mapper.Variant)
  : Frame * Result unit :=
  device_mapper.interpret env v (built env v).

(** A bank that lacks [rsp]. *)
Definition small_bank : gmap string (option Z) :=
  list_to_map [("rax", None); ("rip", Some 7); ("cs", None)].

Definition thread_small_bank : x86_64.Thread :=
  {| x86_64.info := task; x86_64.registers := small_bank;
     x86_64.written := [] |}.

(** A kernel whose [thread_struct] has no [sp] member. *)
Definition image_skewed : gdb.Target :=
  {| gdb.structs :=
       <["thread_struct" := [fld "sp0" 0 gdb.Tulong; fld "usersp" 8 gdb.Tulong]]>
       structs_old;
     gdb.types := gdb.types image_old;
     gdb.minsyms := gdb.minsyms image_old;
     gdb.memory := words |}.

(** The clone bio as a structure value, not a pointer to it. *)
Definition bio_struct : gdb.Value := gdb.Struct "bio" 0x1000.

(** A decoder built on [bio_struct]. *)
Definition built_on_struct (env : device_mapper.Env) (v : device_mapper.Variant)
  : Frame :=
  let r := device_mapper.new env v bio_struct device_mapper.loaded in
  {| world := r.1;
     self := match r.2 with
             | Ok d => d
             | Raise _ => {| class_ := ""; dict := ∅ |}
             end |}.

End samples.

(** Closed decidable statements are settled by evaluation. *)
Ltac by_compute := apply (bool_decide_unpack _); vm_compute; exact I.

(** ** Words read from the image are 64 bits wide *)

Module gdb_facts.

Lemma wrap64_idem z : gdb.wrap64 (gdb.wrap64 z) = gdb.wrap64 z.
Proof. unfold gdb.wrap64. apply Z.mod_mod. lia. Qed.

Lemma read_word_wrapped g a w : gdb.read_word g a = Ok w -> gdb.wrap64 w = w.
Proof.
  unfold gdb.read_word. destruct (gdb.memory g !! a); [|discriminate].
  intros [= <-]. apply wrap64_idem.
Qed.

Lemma value_at_scalar_wrapped g t a ty x :
  gdb.value_at g t a = Ok (gdb.Scalar ty x) -> gdb.wrap64 x = x.
Proof.
  destruct t; simpl; try discriminate;
    destruct (gdb.read_word g a) eqn:E; simpl; try discriminate;
    intros [= _ <-]; eapply read_word_wrapped; eassumption.
Qed.

Lemma getitem_scalar_wrapped g v name ty x :
  gdb.getitem g v name = Ok (gdb.Scalar ty x) -> gdb.wrap64 x = x.
Proof.
  unfold gdb.getitem. intros H.
  repeat case_match; try discriminate; eapply value_at_scalar_wrapped; eassumption.
Qed.

End gdb_facts.

(** ** Register recovery: what the two operations write *)

Module x86_64_facts.
Import x86_64 gdb_facts.

Lemma set_register_ok th r v :
  is_Some (registers th !! r) ->
  set_register r v th =
    ({| info := info th;
        registers := <[r := Some v]> (registers th);
        written := written th ++ [(r, v)] |}, Ok tt).
Proof. intros [o E]. unfold set_register. by rewrite E. Qed.


Lemma setup_thread_scheduled_run g self th ty sp fp rbx r12 r13 r14 r15 :
  ulong_type self = gdb.Tulong ->
  (try t <- gdb.getitem g (task_struct (info th)) "thread";
   gdb.getitem g t "sp") = Ok (gdb.Scalar ty sp) ->
  gdb.read_word g sp = Ok fp ->
  gdb.read_word g (gdb.wrap64 (fp - 1 * 8)) = Ok rbx ->
  gdb.read_word g (gdb.wrap64 (fp - 2 * 8)) = Ok r12 ->
  gdb.read_word g (gdb.wrap64 (fp - 3 * 8)) = Ok r13 ->
  gdb.read_word g (gdb.wrap64 (fp - 4 * 8)) = Ok r14 ->
  gdb.read_word g (gdb.wrap64 (fp - 5 * 8)) = Ok r15 ->
  (forall r, r ∈ scheduled_registers -> is_Some (registers th !! r)) ->
  setup_thread_scheduled g self th =
    ({| info := info th;
        registers :=
          <["ss" := Some 24]> (<["cs" := Some 16]> (<["r15" := Some r15]> (
          <["r14" := Some r14]> (<["r13" := Some r13]> (<["r12" := Some r12]> (
          <["rbx" := Some rbx]> (<["rip" := Some (rip self)]> (
          <["rbp" := Some fp]> (<["rsp" := Some sp]> (registers th))))))))));
        written :=
          written th ++
          [("rsp", sp); ("rbp", fp); ("rip", rip self); ("rbx", rbx);
           ("r12", r12); ("r13", r13); ("r14", r14); ("r15", r15);
           ("cs", 16); ("ss", 24)] |}, Ok tt).
Proof.
  intros Hul Hsp Hfp H1 H2 H3 H4 H5 Hbank.
  assert (Wsp : gdb.wrap64 sp = sp).
  { destruct (gdb.getitem g (task_struct (info th)) "thread") as [t|] eqn:E;
      simpl in Hsp; [|discriminate].
    eapply getitem_scalar_wrapped; eassumption. }
  assert (Wfp : gdb.wrap64 fp = fp) by (eapply read_word_wrapped; eassumption).
  unfold setup_thread_scheduled, bind, get, lift. rewrite Hul.
  destruct (gdb.getitem g (task_struct (info th)) "thread") as [t|] eqn:E;
    simpl in Hsp; [|discriminate].
  simpl. rewrite Hsp. simpl. rewrite Wsp, Hfp. simpl. rewrite Wfp.
  rewrite H1, H2, H3, H4, H5. simpl.
  repeat (rewrite set_register_ok; simpl;
          [|repeat (apply lookup_insert_is_Some'; right); apply Hbank;
            by_compute]).
  rewrite <- !app_assoc. reflexivity.
Qed.

Lemma setup_thread_scheduled_frame (m : gmap string (option Z)) r
    (v1 v2 v3 v4 v5 v6 v7 v8 v9 v10 : option Z) :
  r ∉ scheduled_registers ->
  <["ss" := v10]> (<["cs" := v9]> (<["r15" := v8]> (<["r14" := v7]> (
  <["r13" := v6]> (<["r12" := v5]> (<["rbx" := v4]> (<["rip" := v3]> (
  <["rbp" := v2]> (<["rsp" := v1]> m))))))))) !! r = m !! r.
Proof.
  unfold scheduled_registers. intros Hr.
  repeat (rewrite lookup_insert_ne; [|intros <-; apply Hr; by_compute]).
  reflexivity.
Qed.

(** *** [setup_thread_active] *)


Lemma dict_get_elem {V} (d : list (string * V)) k v :
  NoDup (dict_keys d) -> (k, v) ∈ d -> dict_get d k = Some v.
Proof.
  induction d as [|[k' v'] d IH]; simpl; intros Hnd Hin.
  - by apply elem_of_nil in Hin.
  - apply NoDup_cons in Hnd as [Hk Hnd]. apply elem_of_cons in Hin as [[= -> ->]|Hin].
    + by rewrite bool_decide_eq_true_2.
    + rewrite bool_decide_eq_false_2; [by apply IH|].
      intros ->. apply Hk. apply list_elem_of_fmap. by exists (k, v).
Qed.

Lemma dict_get_None {V} (d : list (string * V)) k :
  dict_get d k = None <-> k ∉ dict_keys d.
Proof.
  induction d as [|[k' v'] d IH]; simpl.
  - split; [intros _; apply not_elem_of_nil|done].
  - rewrite not_elem_of_cons. case_bool_decide as E; subst.
    + split; [done|]. by intros [? _].
    + rewrite IH. split; [intros H; split; [congruence|done]|by intros [_ ?]].
Qed.

Lemma dict_get_Some_elem {V} (d : list (string * V)) k v :
  dict_get d k = Some v -> (k, v) ∈ d.
Proof.
  induction d as [|[k' v'] d IH]; simpl; [done|].
  case_bool_decide as E; subst.
  - intros [= ->]. apply elem_of_cons. by left.
  - intros H. apply elem_of_cons. right. by apply IH.
Qed.

Lemma for_each_copy (task : Task) (kvs : list (string * Z)) (th : Thread) :
  (forall k v, (k, v) ∈ kvs -> dict_get (regs task) k = Some v) ->
  Forall (fun k => k ∈ excluded \/ is_Some (registers th !! k)) (dict_keys kvs) ->
  for_each (dict_keys kvs) (fun reg =>
    if bool_decide (reg ∈ excluded) then ret tt
    else
      match dict_get (regs task) reg with
      | Some v => set_register reg v
      | None => raise (KeyError reg)
      end) th =
  ({| info := info th;
      registers := assign (registers th) (copied kvs);
      written := written th ++ copied kvs |}, Ok tt).
Proof.
  revert th. induction kvs as [|[k v] kvs IH]; intros th Hget Hbank; simpl.
  - unfold ret. rewrite app_nil_r. by destruct th.
  - apply Forall_cons in Hbank as [Hk Hbank].
    unfold bind at 1. case_bool_decide as Hex.
    + unfold ret. apply IH; [|done].
      intros k' v' Hin. apply Hget. apply elem_of_cons. by right.
    + rewrite (Hget k v) by (apply elem_of_cons; by left).
      destruct Hk as [Hk|Hk]; [done|].
      rewrite set_register_ok by done.
      rewrite IH; simpl.
      * by rewrite <- app_assoc.
      * intros k' v' Hin. apply Hget. apply elem_of_cons. by right.
      * eapply Forall_impl; [exact Hbank|]. simpl.
        intros k' [?|?]; [by left|right]. apply lookup_insert_is_Some'. by right.
Qed.

Lemma copied_keys d k v : (k, v) ∈ copied d <-> (k, v) ∈ d /\ k ∉ excluded.
Proof.
  induction d as [|[k' v'] d IH]; simpl.
  - split; [intros H; by apply elem_of_nil in H|intros [H _]; by apply elem_of_nil in H].
  - case_bool_decide as Hex; rewrite ?elem_of_cons, IH.
    + split; [tauto|]. intros [[[= -> ->]|Hin] Hnot]; [done|tauto].
    + split.
      * intros [[= -> ->]|[Hin Hnot]]; [split; [by left|done]|tauto].
      * intros [[Heq|Hin] Hnot]; [by left|tauto].
Qed.

Lemma writes_to_absent r ws : r ∉ dict_keys ws -> writes_to r ws = [].
Proof.
  induction ws as [|[k v] ws IH]; simpl; [done|].
  rewrite not_elem_of_cons. intros [Hne Hr].
  rewrite bool_decide_eq_false_2 by done. by apply IH.
Qed.

Lemma copied_keys_subset d k : k ∈ dict_keys (copied d) -> k ∈ dict_keys d /\ k ∉ excluded.
Proof.
  unfold dict_keys. rewrite !list_elem_of_fmap. intros [[k' v] [-> Hin]].
  apply copied_keys in Hin as [Hin Hex]. split; [|done]. by exists (k', v).
Qed.

Lemma copied_NoDup d : NoDup (dict_keys d) -> NoDup (dict_keys (copied d)).
Proof.
  induction d as [|[k v] d IH]; simpl; [done|].
  intros [Hk Hnd]%NoDup_cons. case_bool_decide.
  - by apply IH.
  - simpl. apply NoDup_cons. split; [|by apply IH].
    intros Hin. apply Hk. by apply copied_keys_subset in Hin as [? _].
Qed.

Lemma writes_to_once r v ws :
  NoDup (dict_keys ws) -> (r, v) ∈ ws -> writes_to r ws = [v].
Proof.
  induction ws as [|[k' v'] ws IH]; simpl; intros Hnd Hin.
  - by apply elem_of_nil in Hin.
  - apply NoDup_cons in Hnd as [Hk Hnd]. apply elem_of_cons in Hin as [[= <- <-]|Hin].
    + rewrite bool_decide_eq_true_2 by done. f_equal. by apply writes_to_absent.
    + rewrite bool_decide_eq_false_2; [by apply IH|].
      intros ->. apply Hk. apply list_elem_of_fmap. by exists (r, v).
Qed.

Lemma assign_absent m ws r : r ∉ dict_keys ws -> assign m ws !! r = m !! r.
Proof.
  revert m. induction ws as [|[k v] ws IH]; intros m; simpl; [done|].
  rewrite not_elem_of_cons. intros [Hne Hr].
  unfold assign in *. simpl. rewrite IH by done. by rewrite lookup_insert_ne.
Qed.

Lemma assign_once m ws r v :
  NoDup (dict_keys ws) -> (r, v) ∈ ws -> assign m ws !! r = Some (Some v).
Proof.
  revert m. induction ws as [|[k' v'] ws IH]; intros m Hnd Hin.
  - by apply elem_of_nil in Hin.
  - simpl in Hnd. apply NoDup_cons in Hnd as [Hk Hnd].
    apply elem_of_cons in Hin as [[= <- <-]|Hin].
    + unfold assign. simpl. fold (assign (<[r:=Some v]> m) ws).
      rewrite assign_absent by done. by rewrite lookup_insert_eq.
    + unfold assign. simpl. fold (assign (<[k':=Some v']> m) ws). by apply IH.
Qed.

Lemma init_ok g addr :
  gdb.lookup_minimal_symbol g "thread_return" = Some addr ->
  gdb.types g !! "unsigned long" = Some gdb.Tulong ->
  init g = Ok {| rip := addr; ulong_type := gdb.Tulong |}.
Proof.
  intros Hsym Hty. unfold init, gdb.lookup_type. by rewrite Hsym, Hty.
Qed.


Lemma sample_parked :
  parked samples.image_old samples.thread 0x20000 0x20100 11 12 13 14 15.
Proof. unfold parked. repeat split; try reflexivity. by exists gdb.Tulong. Qed.

Lemma sample_has_registers : has_registers samples.thread scheduled_registers.
Proof. unfold has_registers. apply (bool_decide_unpack _). by vm_compute. Qed.

(** C2: for a Scheduled thread, [setup_thread_scheduled] sets [rsp] to
    the saved stack pointer of the task's [thread] record, [rbp] to the
    word read at that address, and [rbx], [r12], [r13], [r14], [r15] to
    the words 1, 2, 3, 4 and 5 word widths (8 bytes) below the frame
    pointer.  The values are those of the memory image: nothing of the
    thread's bank or of earlier writes enters them. *)
Theorem scheduled_registers_from_memory g self th sp fp rbx r12 r13 r14 r15 :
  ulong_type self = gdb.Tulong ->
  parked g th sp fp rbx r12 r13 r14 r15 ->
  has_registers th scheduled_registers ->
  exists th',
    setup_thread_scheduled g self th = (th', Ok tt) /\
    registers th' !! "rsp" = Some (Some sp) /\
    registers th' !! "rbp" = Some (Some fp) /\
    registers th' !! "rbx" = Some (Some rbx) /\
    registers th' !! "r12" = Some (Some r12) /\
    registers th' !! "r13" = Some (Some r13) /\
    registers th' !! "r14" = Some (Some r14) /\
    registers th' !! "r15" = Some (Some r15).
Proof.
  intros Hul ([ty Hsp] & Hfp & H1 & H2 & H3 & H4 & H5) Hbank.
  eexists. split.
  - eapply setup_thread_scheduled_run; eauto.
    intros r Hr. unfold has_registers in Hbank.
    rewrite Forall_forall in Hbank. by apply Hbank.
  - simpl. repeat split; by simplify_map_eq.
Qed.

Lemma scheduled_registers_from_memory_witness :
  exists th',
    setup_thread_scheduled samples.image_old samples.arch samples.thread
      = (th', Ok tt) /\
    registers th' !! "rsp" = Some (Some 0x20000) /\
    registers th' !! "rbp" = Some (Some 0x20100) /\
    registers th' !! "rbx" = Some (Some 11) /\
    registers th' !! "r12" = Some (Some 12) /\
    registers th' !! "r13" = Some (Some 13) /\
    registers th' !! "r14" = Some (Some 14) /\
    registers th' !! "r15" = Some (Some 15).
Proof.
  apply scheduled_registers_from_memory.
  - reflexivity.
  - exact sample_parked.
  - exact sample_has_registers.
Defined.

(** C7: the architecture resolves the minimal symbol [thread_return]
    once, when it is constructed, and after [setup_thread_scheduled]
    the [rip] of every Scheduled thread is that address. *)
Theorem scheduled_rip_is_thread_return g addr :
  gdb.lookup_minimal_symbol g "thread_return" = Some addr ->
  gdb.types g !! "unsigned long" = Some gdb.Tulong ->
  exists self,
    init g = Ok self /\
    forall th sp fp rbx r12 r13 r14 r15,
      parked g th sp fp rbx r12 r13 r14 r15 ->
      has_registers th scheduled_registers ->
      exists th',
        setup_thread_scheduled g self th = (th', Ok tt) /\
        registers th' !! "rip" = Some (Some addr).
Proof.
  intros Hsym Hty. eexists. split; [by apply init_ok|].
  intros th sp fp rbx r12 r13 r14 r15 ([ty Hsp] & Hfp & H1 & H2 & H3 & H4 & H5) Hbank.
  eexists. split.
  - eapply setup_thread_scheduled_run; eauto.
    intros r Hr. unfold has_registers in Hbank.
    rewrite Forall_forall in Hbank. by apply Hbank.
  - simpl. by simplify_map_eq.
Qed.

Lemma scheduled_rip_is_thread_return_witness :
  exists self th',
    init samples.image_old = Ok self /\
    setup_thread_scheduled samples.image_old self samples.thread = (th', Ok tt) /\
    registers th' !! "rip" = Some (Some 0xffffffff81501000).
Proof.
  destruct (scheduled_rip_is_thread_return samples.image_old 0xffffffff81501000)
    as (self & Hinit & Hall); [reflexivity..|].
  destruct (Hall samples.thread _ _ _ _ _ _ _ sample_parked sample_has_registers)
    as (th' & Hrun & Hrip).
  by exists self, th'.
Defined.

(** C8: [setup_thread_scheduled] makes exactly ten register
    assignments, to [rsp], [rbp], [rip], [rbx], [r12], [r13], [r14],
    [r15], [cs] and [ss], the last two with the values [2*8] and [3*8];
    every other register of the bank keeps what it held (nothing, for a
    register not assigned before). *)
Theorem scheduled_writes_ten_registers g self th sp fp rbx r12 r13 r14 r15 :
  ulong_type self = gdb.Tulong ->
  parked g th sp fp rbx r12 r13 r14 r15 ->
  has_registers th scheduled_registers ->
  exists th',
    setup_thread_scheduled g self th = (th', Ok tt) /\
    written th' =
      (written th ++
       [("rsp", sp); ("rbp", fp); ("rip", rip self); ("rbx", rbx);
        ("r12", r12); ("r13", r13); ("r14", r14); ("r15", r15);
        ("cs", 2 * 8); ("ss", 3 * 8)])%list /\
    registers th' !! "cs" = Some (Some 16) /\
    registers th' !! "ss" = Some (Some 24) /\
    forall r, r ∉ scheduled_registers -> registers th' !! r = registers th !! r.
Proof.
  intros Hul ([ty Hsp] & Hfp & H1 & H2 & H3 & H4 & H5) Hbank.
  eexists. split.
  - eapply setup_thread_scheduled_run; eauto.
    intros r Hr. unfold has_registers in Hbank.
    rewrite Forall_forall in Hbank. by apply Hbank.
  - simpl. split; [reflexivity|]. split; [by simplify_map_eq|].
    split; [by simplify_map_eq|].
    intros r Hr. by apply setup_thread_scheduled_frame.
Qed.

Lemma scheduled_writes_ten_registers_witness :
  exists th',
    setup_thread_scheduled samples.image_old samples.arch samples.thread
      = (th', Ok tt) /\
    written th' =
      (written samples.thread ++
       [("rsp", 0x20000); ("rbp", 0x20100); ("rip", rip samples.arch); ("rbx", 11);
        ("r12", 12); ("r13", 13); ("r14", 14); ("r15", 15);
        ("cs", 2 * 8); ("ss", 3 * 8)])%list /\
    registers th' !! "cs" = Some (Some 16) /\
    registers th' !! "ss" = Some (Some 24) /\
    forall r, r ∉ scheduled_registers ->
      registers th' !! r = registers samples.thread !! r.
Proof.
  apply scheduled_writes_ten_registers.
  - reflexivity.
  - exact sample_parked.
  - exact sample_has_registers.
Defined.

(** C3: for an Active thread, [setup_thread_active] assigns every
    register of the task's snapshot once, with the snapshot's value,
    unless it is one of [gs_base], [orig_ax], [rflags], [fs_base]; those
    four are not assigned, and neither is a register that the snapshot
    does not have. *)
Theorem setup_thread_active_copies self th :
  NoDup (dict_keys (regs (info th))) ->
  Forall (fun r => r ∈ excluded \/ is_Some (registers th !! r))
         (dict_keys (regs (info th))) ->
  exists th' ws,
    setup_thread_active self th = (th', Ok tt) /\
    written th' = (written th ++ ws)%list /\
    (forall r v, dict_get (regs (info th)) r = Some v -> r ∉ excluded ->
       writes_to r ws = [v] /\ registers th' !! r = Some (Some v)) /\
    (forall r, r ∈ excluded ->
       writes_to r ws = [] /\ registers th' !! r = registers th !! r) /\
    (forall r, dict_get (regs (info th)) r = None ->
       writes_to r ws = [] /\ registers th' !! r = registers th !! r).
Proof.
  intros Hnd Hbank.
  exists {| info := info th;
            registers := assign (registers th) (copied (regs (info th)));
            written := written th ++ copied (regs (info th)) |},
         (copied (regs (info th))).
  split; [|split; [reflexivity|]].
  - unfold setup_thread_active, bind at 1, get.
    apply for_each_copy; [|done].
    intros k v Hin. by apply dict_get_elem.
  - simpl. pose proof (copied_NoDup _ Hnd) as Hndc.
    split; [|split].
    + intros r v Hget Hex.
      assert ((r, v) ∈ copied (regs (info th))) as Hin.
      { apply copied_keys. split; [by apply dict_get_Some_elem|done]. }
      split; [by apply writes_to_once|by apply assign_once].
    + intros r Hex.
      assert (r ∉ dict_keys (copied (regs (info th)))) as Hout.
      { intros Hin. by apply copied_keys_subset in Hin as [_ ?]. }
      split; [by apply writes_to_absent|by apply assign_absent].
    + intros r Hget.
      assert (r ∉ dict_keys (copied (regs (info th)))) as Hout.
      { intros Hin. apply copied_keys_subset in Hin as [Hin _].
        by apply dict_get_None in Hget. }
      split; [by apply writes_to_absent|by apply assign_absent].
Qed.

Lemma setup_thread_active_copies_witness :
  exists th' ws,
    setup_thread_active samples.arch samples.thread = (th', Ok tt) /\
    written th' = (written samples.thread ++ ws)%list /\
    (forall r v, dict_get (regs (info samples.thread)) r = Some v -> r ∉ excluded ->
       writes_to r ws = [v] /\ registers th' !! r = Some (Some v)) /\
    (forall r, r ∈ excluded ->
       writes_to r ws = [] /\ registers th' !! r = registers samples.thread !! r) /\
    (forall r, dict_get (regs (info samples.thread)) r = None ->
       writes_to r ws = [] /\ registers th' !! r = registers samples.thread !! r).
Proof.
  apply setup_thread_active_copies.
  - apply (bool_decide_unpack _). by vm_compute.
  - apply (bool_decide_unpack _). by vm_compute.
Defined.

End x86_64_facts.

(** ** The decoders *)

Module device_mapper_facts.
Import py device_mapper gdb_facts.

(** *** Running statement sequences *)

Lemma bind_Ok {S A B} (m : M S A) (k : A -> M S B) s s' b :
  bind m k s = (s', Ok b) ->
  exists s1 a, m s = (s1, Ok a) /\ k a s1 = (s', Ok b).
Proof.
  unfold bind. destruct (m s) as [s1 [a|e]]; [eauto|discriminate].
Qed.

Lemma bind_run {S A B} (m : M S A) (k : A -> M S B) s s1 a :
  m s = (s1, Ok a) -> bind m k s = k a s1.
Proof. unfold bind. by intros ->. Qed.

Lemma bind_raise {S A B} (m : M S A) (k : A -> M S B) s s1 e :
  m s = (s1, Raise e) -> bind m k s = (s1, Raise e).
Proof. unfold bind. by intros ->. Qed.

Lemma lift_Ok {S A} (r : Result A) (s s' : S) a :
  lift r s = (s', Ok a) -> s' = s /\ r = Ok a.
Proof. unfold lift. by intros [= <- ->]. Qed.

Lemma getattr_state name fr fr' r : getattr name fr = (fr', r) -> fr' = fr.
Proof. unfold getattr. repeat case_match; by intros [= <- _]. Qed.

Lemma getattr_own name fr v :
  dict (self fr) !! name = Some v -> getattr name fr = (fr, Ok v).
Proof. unfold getattr. by intros ->. Qed.

Lemma getattr_missing name fr :
  dict (self fr) !! name = None ->
  class_lookup (classes (world fr)) (mro (class_ (self fr))) name = None ->
  getattr name fr = (fr, Raise (AttributeError name)).
Proof. unfold getattr. by intros -> ->. Qed.

Lemma getattr_value_state name fr fr' r :
  getattr_value name fr = (fr', r) -> fr' = fr.
Proof.
  unfold getattr_value, bind, lift.
  destruct (getattr name fr) as [fr1 [v|e]] eqn:E; apply getattr_state in E;
    subst; by intros [= <- _].
Qed.

Lemma getattr_value_own name fr v :
  dict (self fr) !! name = Some (PyValue v) ->
  getattr_value name fr = (fr, Ok v).
Proof.
  intros H. unfold getattr_value. by rewrite (bind_run _ _ _ _ _ (getattr_own _ _ _ H)).
Qed.

Lemma getattr_value_missing name fr :
  dict (self fr) !! name = None ->
  class_lookup (classes (world fr)) (mro (class_ (self fr))) name = None ->
  getattr_value name fr = (fr, Raise (AttributeError name)).
Proof.
  intros H1 H2. unfold getattr_value.
  by rewrite (bind_raise _ _ _ _ _ (getattr_missing _ _ H1 H2)).
Qed.

(** *** Properties of the frame that a statement sequence keeps *)


Lemma preserves_ret {A} P (a : A) : preserves P (ret a).
Proof. by intros fr. Qed.

Lemma preserves_raise {A} P e : preserves P (@raise Frame A e).
Proof. by intros fr. Qed.

Lemma preserves_lift {A} P (r : Result A) : preserves P (lift r).
Proof. by intros fr. Qed.

Lemma preserves_bind {A B} P (m : M Frame A) (k : A -> M Frame B) :
  preserves P m -> (forall a, preserves P (k a)) -> preserves P (bind m k).
Proof.
  intros Hm Hk fr HP. unfold bind. specialize (Hm fr HP).
  destruct (m fr) as [fr1 [a|e]]; simpl in *; [by apply Hk|done].
Qed.

Lemma preserves_getattr P name : preserves P (getattr name).
Proof.
  intros fr HP. destruct (getattr name fr) as [fr1 r] eqn:E.
  apply getattr_state in E. by subst.
Qed.

Lemma preserves_getattr_value P name : preserves P (getattr_value name).
Proof.
  intros fr HP. destruct (getattr_value name fr) as [fr1 r] eqn:E.
  apply getattr_value_state in E. by subst.
Qed.

Lemma preserves_if {A} P (b : bool) (m1 m2 : M Frame A) :
  preserves P m1 -> preserves P m2 -> preserves P (if b then m1 else m2).
Proof. by destruct b. Qed.


Lemma preserves_contains Q g t name : preserves (of_self Q) (contains g t name).
Proof. by intros fr. Qed.

Lemma preserves_call_decode_bio Q env b :
  preserves (of_self Q) (call_decode_bio env b).
Proof.
  intros fr HP. unfold call_decode_bio.
  by destruct (decode_bio env b (world fr)).
Qed.


Lemma preserves_setattr_other name v name' v' :
  name' <> name -> preserves (of_self (holds name v)) (setattr name' v').
Proof.
  intros Hne fr HP. unfold of_self, holds in *. simpl.
  by rewrite lookup_insert_ne.
Qed.

Ltac keep :=
  repeat first
    [ apply preserves_getattr
    | apply preserves_getattr_value
    | apply preserves_lift
    | apply preserves_ret
    | apply preserves_raise
    | apply preserves_contains
    | apply preserves_call_decode_bio
    | apply preserves_setattr_other; discriminate
    | apply preserves_if
    | apply preserves_bind; [|intros ?] ].

Section Frame_of_bio.

Variable env : Env.
Variable b : PyVal.

Abbreviation P := (of_self (holds "bio" b)).

Lemma call_rq_info_keeps_bio f bio : preserves P (call_rq_info env f bio).
Proof.
  unfold call_rq_info, _get_clone_bio_rq_info_old, _get_clone_bio_rq_info_3_7.
  destruct f; keep.
Qed.

Lemma call_tio_keeps_bio f bio : preserves P (call_tio env f bio).
Proof.
  unfold call_tio, _get_clone_bio_tio_old, _get_clone_bio_tio_3_15.
  destruct f; keep.
Qed.

Lemma step_keeps_bio v op fr : P fr -> P (step env v op fr).
Proof.
  revert fr.
  destruct v, op; unfold step, interpret, __str__, __next__;
    unfold ClonedBioReqDecoder_interpret, ClonedBioReqDecoder__str__,
      ClonedBioReqDecoder__next__, ClonedBioDecoder_interpret,
      ClonedBioDecoder__str__, ClonedBioDecoder__next__;
    match goal with |- forall fr, P fr -> P (fst (?m fr)) =>
      change (preserves P m) end;
    keep; first [apply call_rq_info_keeps_bio | apply call_tio_keeps_bio].
Qed.

Lemma run_keeps_bio v ops fr : P fr -> P (run env v ops fr).
Proof.
  revert fr. induction ops as [|op ops IH]; intros fr HP; simpl; [done|].
  apply IH. by apply step_keeps_bio.
Qed.

End Frame_of_bio.

Lemma init_sets_bio env v bio fr :
  of_self (holds "bio" (PyValue bio)) (__init__ env v bio fr).1.
Proof.
  destruct v; unfold __init__, ClonedBioReqDecoder__init__,
    ClonedBioDecoder__init__, Decoder__init__;
    rewrite (bind_run _ _ fr fr tt) by reflexivity;
    erewrite bind_run by reflexivity;
    match goal with |- of_self ?Q (fst (?m ?f)) =>
      assert (preserves (of_self Q) m) as Hp by keep; apply Hp end;
    unfold of_self, holds; simpl; by rewrite lookup_insert_eq.
Qed.

Lemma new_frame env v bio w w' d :
  new env v bio w = (w', Ok d) ->
  __init__ env v bio
    {| world := w; self := {| class_ := class_name v; dict := ∅ |} |}
  = ({| world := w'; self := d |}, Ok tt).
Proof.
  unfold new.
  destruct (__init__ _ _ _ _) as [[w1 d1] [[]|e]]; simpl; [|discriminate].
  by intros [= -> ->].
Qed.

(** C10: the [bio] a decoder of either variant was constructed with
    stays its [bio] attribute through any sequence of [interpret],
    description and [advance] calls, whether they return or raise. *)
Theorem decoder_bio_is_never_modified env v bio w w' d ops :
  new env v bio w = (w', Ok d) ->
  dict (self (run env v ops {| world := w'; self := d |})) !! "bio"
  = Some (PyValue bio).
Proof.
  intros Hnew. apply new_frame in Hnew.
  pose proof (init_sets_bio env v bio
    {| world := w; self := {| class_ := class_name v; dict := ∅ |} |}) as Hbio.
  rewrite Hnew in Hbio. simpl in Hbio.
  by apply (run_keeps_bio env (PyValue bio) v ops) in Hbio.
Qed.

Lemma decoder_bio_is_never_modified_witness :
  dict (self (run samples.env_old BioBased
                [Interpret; Describe; Advance; Interpret; Describe]
                (samples.built samples.env_old BioBased))) !! "bio"
  = Some (PyValue samples.bio).
Proof.
  apply (decoder_bio_is_never_modified samples.env_old BioBased samples.bio loaded).
  by_compute.
Defined.

(** *** Before and after [interpret] *)

Lemma uninterpreted_setattr cs cls name v :
  name ∈ init_attrs -> preserves (uninterpreted cs cls) (setattr name v).
Proof.
  intros Hin fr (Hc & Hcl & Hd). repeat split; simpl; [done..|].
  intros k Hk. rewrite lookup_insert_ne; [by apply Hd|].
  by intros ->.
Qed.

Lemma uninterpreted_contains cs cls g t name :
  preserves (uninterpreted cs cls) (contains g t name).
Proof. by intros fr (Hc & Hcl & Hd). Qed.

Lemma uninterpreted_init env v bio cs :
  preserves (uninterpreted cs (class_name v)) (__init__ env v bio).
Proof.
  destruct v; unfold __init__, ClonedBioReqDecoder__init__,
    ClonedBioDecoder__init__, Decoder__init__;
    repeat first
      [ apply preserves_getattr
      | apply preserves_lift
      | apply preserves_ret
      | apply uninterpreted_contains
      | apply uninterpreted_setattr; by_compute
      | apply preserves_if
      | apply preserves_bind; [|intros ?] ].
Qed.

Lemma new_uninterpreted env v bio w w' d :
  new env v bio w = (w', Ok d) ->
  uninterpreted (classes w) (class_name v) {| world := w'; self := d |}.
Proof.
  intros Hnew. apply new_frame in Hnew.
  pose proof (uninterpreted_init env v bio (classes w)
    {| world := w; self := {| class_ := class_name v; dict := ∅ |} |}) as H.
  rewrite Hnew in H. apply H. by repeat split.
Qed.

Lemma no_derived_class_attribute v name :
  name ∈ ["info"; "tio"; "next_bio"] ->
  class_lookup (classes loaded) (mro (class_name v)) name = None.
Proof.
  intros Hin. repeat (apply elem_of_cons in Hin as [->|Hin]);
    [..|by apply elem_of_nil in Hin]; by destruct v.
Qed.

Lemma uninterpreted_getattr v name fr :
  uninterpreted (classes loaded) (class_name v) fr ->
  name ∈ ["info"; "tio"; "next_bio"] ->
  getattr name fr = (fr, Raise (AttributeError name)).
Proof.
  intros (Hc & Hcl & Hd) Hin. apply getattr_missing.
  - apply Hd. unfold init_attrs. intros Hk.
    repeat (apply elem_of_cons in Hin as [->|Hin]);
      [..|by apply elem_of_nil in Hin]; revert Hk; by_compute.
  - rewrite Hc, Hcl. by apply no_derived_class_attribute.
Qed.

Lemma setattr_run name v fr :
  setattr name v fr =
    ({| world := world fr;
        self := {| class_ := class_ (self fr);
                   dict := <[name := v]> (dict (self fr)) |} |}, Ok tt).
Proof. reflexivity. Qed.

Lemma uninterpreted_next env v fr :
  uninterpreted (classes loaded) (class_name v) fr ->
  __next__ env v fr = (fr, Raise (AttributeError (advance_reads v))).
Proof.
  intros H. destruct v; unfold __next__, ClonedBioReqDecoder__next__,
    ClonedBioDecoder__next__, getattr_value;
    erewrite bind_raise; [reflexivity| |reflexivity|];
    (erewrite bind_raise; [reflexivity|]);
    eapply uninterpreted_getattr; [exact H|by_compute|exact H|by_compute].
Qed.

Lemma req_interpret_Ok env fr fr' :
  ClonedBioReqDecoder_interpret env fr = (fr', Ok tt) ->
  exists info tio,
    dict (self fr') !! "info" = Some (PyValue info) /\
    dict (self fr') !! "tio" = Some (PyValue tio).
Proof.
  unfold ClonedBioReqDecoder_interpret. intros H.
  apply bind_Ok in H as (fr1 & f & _ & H).
  apply bind_Ok in H as (fr2 & bio & _ & H).
  apply bind_Ok in H as (fr3 & info & _ & H).
  apply bind_Ok in H as (fr4 & [] & H4 & H).
  apply bind_Ok in H as (fr5 & info' & H5 & H).
  apply bind_Ok in H as (fr6 & tio & H6 & H).
  rewrite setattr_run in H4, H. injection H4 as <-. injection H as <-.
  pose proof (getattr_value_state _ _ _ _ H5) as ->.
  apply lift_Ok in H6 as [-> _].
  exists info, tio. simpl. split; by simplify_map_eq.
Qed.

Lemma bio_interpret_Ok env fr fr' :
  ClonedBioDecoder_interpret env fr = (fr', Ok tt) ->
  exists tio next_bio,
    dict (self fr') !! "tio" = Some (PyValue tio) /\
    dict (self fr') !! "next_bio" = Some (PyValue next_bio).
Proof.
  unfold ClonedBioDecoder_interpret. intros H.
  apply bind_Ok in H as (fr1 & f & _ & H).
  apply bind_Ok in H as (fr2 & bio & _ & H).
  apply bind_Ok in H as (fr3 & tio & _ & H).
  apply bind_Ok in H as (fr4 & [] & H4 & H).
  apply bind_Ok in H as (fr5 & tio' & H5 & H).
  apply bind_Ok in H as (fr6 & io & H6 & H).
  apply bind_Ok in H as (fr7 & next_bio & H7 & H).
  rewrite setattr_run in H4, H. injection H4 as <-. injection H as <-.
  pose proof (getattr_value_state _ _ _ _ H5) as ->.
  apply lift_Ok in H6 as [-> _]. apply lift_Ok in H7 as [-> _].
  exists tio, next_bio. simpl. split; by simplify_map_eq.
Qed.

(** C9: on a decoder of either variant that was constructed and not
    interpreted, reading [tio] (and [next_bio]) raises [AttributeError]
    and so does [advance]; once [interpret] has returned, [tio] (and
    [next_bio] for the bio-based variant) are read back as values, and
    [advance] gets past its read of the derived attribute. *)
Theorem derived_fields_need_interpret env v bio w w' d :
  classes w = classes loaded ->
  new env v bio w = (w', Ok d) ->
  let fr := {| world := w'; self := d |} in
  getattr "tio" fr = (fr, Raise (AttributeError "tio")) /\
  getattr "next_bio" fr = (fr, Raise (AttributeError "next_bio")) /\
  (exists name, __next__ env v fr = (fr, Raise (AttributeError name))) /\
  forall fr', interpret env v fr = (fr', Ok tt) ->
    (exists tio, getattr "tio" fr' = (fr', Ok (PyValue tio))) /\
    match v with
    | RequestBased =>
        exists info,
          getattr "info" fr' = (fr', Ok (PyValue info)) /\
          __next__ env v fr' =
            (do orig <- lift (gdb.getitem (target env) info "orig");
             call_decode_bio env orig) fr'
    | BioBased =>
        exists next_bio,
          getattr "next_bio" fr' = (fr', Ok (PyValue next_bio)) /\
          __next__ env v fr' = call_decode_bio env next_bio fr'
    end.
Proof.
  intros Hc Hnew fr. pose proof (new_uninterpreted _ _ _ _ _ _ Hnew) as Hun.
  rewrite Hc in Hun. fold fr in Hun.
  split; [eapply uninterpreted_getattr; [exact Hun|by_compute]|].
  split; [eapply uninterpreted_getattr; [exact Hun|by_compute]|].
  split; [eexists; by apply uninterpreted_next|].
  intros fr' Hint. destruct v; simpl in Hint.
  - apply req_interpret_Ok in Hint as (info & tio & Hinfo & Htio).
    split; [exists tio; by apply getattr_own|].
    exists info. split; [by apply getattr_own|].
    unfold __next__, ClonedBioReqDecoder__next__.
    by erewrite bind_run by (by apply getattr_value_own).
  - apply bio_interpret_Ok in Hint as (tio & next_bio & Htio & Hnext).
    split; [exists tio; by apply getattr_own|].
    exists next_bio. split; [by apply getattr_own|].
    unfold __next__, ClonedBioDecoder__next__.
    by erewrite bind_run by (by apply getattr_value_own).
Qed.

(** *** The request-based decoder on the layout without an embedded clone *)

Lemma getattr_class name fr v :
  dict (self fr) !! name = None ->
  class_lookup (classes (world fr)) (mro (class_ (self fr))) name = Some v ->
  getattr name fr =
    (fr, Ok match v with PyFunction f => PyMethod f | _ => v end).
Proof. unfold getattr. intros -> ->. by destruct v. Qed.

Tactic Notation "run_with" tactic(t) := erewrite bind_run; [|t].

Ltac class_attr H :=
  apply getattr_class; [by simplify_map_eq|simpl; rewrite ?H; reflexivity].

Lemma req_init_old env bio w :
  classes w = classes loaded ->
  is_Some (gdb.structs (target env) !! "dm_rq_clone_bio_info") ->
  gdb.find_field (target env) "dm_rq_clone_bio_info" "clone" = None ->
  new env RequestBased bio w =
    ({| classes := classes w;
        probes := probes w ++ [(gdb.Tstruct "dm_rq_clone_bio_info", "clone")] |},
     Ok {| class_ := "ClonedBioReqDecoder";
           dict := <["_get_clone_bio_rq_info" :=
                       PyMethod "_get_clone_bio_rq_info_old"]>
                   (<["bio" := PyValue bio]> ∅) |}).
Proof.
  intros Hc Hres Hno. unfold new, __init__, ClonedBioReqDecoder__init__,
    Decoder__init__.
  run_with reflexivity. run_with reflexivity.
  run_with (class_attr Hc). simpl.
  run_with (class_attr Hc).
  unfold Types_getattr. simpl. rewrite (bool_decide_eq_true_2 _ Hres).
  run_with reflexivity. run_with reflexivity.
  unfold contains. run_with (unfold bind, modify, lift; simpl; rewrite Hno; reflexivity).
  rewrite bool_decide_eq_false_2 by (intros [? [=]]).
  run_with (class_attr Hc).
  reflexivity.
Qed.

Lemma rq_info_old_run env bio fr ty p :
  classes (world fr) = classes loaded ->
  class_ (self fr) = "ClonedBioReqDecoder" ->
  dict (self fr) !! "_types" = None ->
  is_Some (gdb.structs (target env) !! "dm_rq_clone_bio_info") ->
  gdb.getitem (target env) bio "bi_private" = Ok (gdb.Scalar ty p) ->
  _get_clone_bio_rq_info_old env bio fr =
    (fr, Ok (gdb.Scalar (gdb.Tptr (gdb.Tstruct "dm_rq_clone_bio_info")) p)).
Proof.
  intros Hc Hcl Hd Hres Hpriv.
  pose proof (getitem_scalar_wrapped _ _ _ _ _ Hpriv) as Hp.
  unfold _get_clone_bio_rq_info_old. rewrite Hpriv.
  run_with reflexivity.
  run_with (apply getattr_class; [exact Hd|rewrite Hc, Hcl; reflexivity]).
  unfold Types_getattr. simpl. rewrite (bool_decide_eq_true_2 _ Hres).
  run_with reflexivity. simpl. by rewrite Hp.
Qed.

Lemma req_interpret_old env bio w d ty p A :
  classes w = classes loaded ->
  class_ d = "ClonedBioReqDecoder" ->
  dict d = <["_get_clone_bio_rq_info" := PyMethod "_get_clone_bio_rq_info_old"]>
           (<["bio" := PyValue bio]> ∅) ->
  is_Some (gdb.structs (target env) !! "dm_rq_clone_bio_info") ->
  gdb.getitem (target env) bio "bi_private" = Ok (gdb.Scalar ty p) ->
  gdb.getitem (target env)
    (gdb.Scalar (gdb.Tptr (gdb.Tstruct "dm_rq_clone_bio_info")) p) "tio" = Ok A ->
  interpret env RequestBased {| world := w; self := d |} =
    ({| world := w;
        self := {| class_ := "ClonedBioReqDecoder";
                   dict := <["tio" := PyValue A]>
                     (<["info" := PyValue
                          (gdb.Scalar (gdb.Tptr (gdb.Tstruct "dm_rq_clone_bio_info")) p)]>
                        (dict d)) |} |}, Ok tt).
Proof.
  intros Hc Hcl Hd Hres Hpriv Htio.
  unfold interpret, ClonedBioReqDecoder_interpret.
  run_with (apply getattr_own; simpl; rewrite Hd; by simplify_map_eq).
  run_with (apply getattr_value_own; simpl; rewrite Hd; by simplify_map_eq).
  unfold call_rq_info. rewrite bool_decide_eq_true_2 by reflexivity.
  run_with (eapply rq_info_old_run; simpl; eauto; rewrite Hd; by simplify_map_eq).
  run_with reflexivity.
  run_with (apply getattr_value_own; simpl; by simplify_map_eq).
  rewrite Htio. run_with reflexivity.
  rewrite setattr_run. simpl. by rewrite Hcl.
Qed.

(** C6: for a request-based clone whose [bi_private] points to a
    [dm_rq_clone_bio_info] without an embedded clone, [interpret] makes
    the block's [tio] field the decoder's [tio], and [advance] returns
    what [decode_bio] makes of the block's [orig] field. *)
Theorem request_clone_old_layout env bio w ty p A B :
  classes w = classes loaded ->
  is_Some (gdb.structs (target env) !! "dm_rq_clone_bio_info") ->
  gdb.find_field (target env) "dm_rq_clone_bio_info" "clone" = None ->
  gdb.getitem (target env) bio "bi_private" = Ok (gdb.Scalar ty p) ->
  gdb.getitem (target env)
    (gdb.Scalar (gdb.Tptr (gdb.Tstruct "dm_rq_clone_bio_info")) p) "tio" = Ok A ->
  gdb.getitem (target env)
    (gdb.Scalar (gdb.Tptr (gdb.Tstruct "dm_rq_clone_bio_info")) p) "orig" = Ok B ->
  exists w1 d fr,
    new env RequestBased bio w = (w1, Ok d) /\
    interpret env RequestBased {| world := w1; self := d |} = (fr, Ok tt) /\
    getattr "tio" fr = (fr, Ok (PyValue A)) /\
    __next__ env RequestBased fr = call_decode_bio env B fr.
Proof.
  intros Hc Hres Hno Hpriv Htio Horig.
  eexists _, _, _. split; [by apply req_init_old|].
  split; [eapply req_interpret_old; eauto|].
  split; [apply getattr_own; simpl; by simplify_map_eq|].
  unfold __next__, ClonedBioReqDecoder__next__.
  run_with (apply getattr_value_own; simpl; by simplify_map_eq).
  rewrite Horig. by run_with reflexivity.
Qed.

Lemma request_clone_old_layout_witness :
  exists w1 d fr,
    new samples.env_old RequestBased samples.bio loaded = (w1, Ok d) /\
    interpret samples.env_old RequestBased {| world := w1; self := d |}
      = (fr, Ok tt) /\
    getattr "tio" fr =
      (fr, Ok (PyValue (gdb.Scalar (gdb.Tptr (gdb.Tstruct "dm_rq_target_io")) 0x6000))) /\
    __next__ samples.env_old RequestBased fr =
      call_decode_bio samples.env_old
        (gdb.Scalar (gdb.Tptr (gdb.Tstruct "bio")) 0x3000) fr.
Proof.
  apply (request_clone_old_layout samples.env_old samples.bio loaded
           (gdb.Tptr gdb.Tvoid) 0x2000).
  - reflexivity.
  - by_compute.
  - by_compute.
  - by_compute.
  - by_compute.
  - by_compute.
Defined.

Lemma derived_fields_need_interpret_witness :
  getattr "tio" (samples.built samples.env_old BioBased)
    = (samples.built samples.env_old BioBased, Raise (AttributeError "tio")) /\
  getattr "next_bio" (samples.built samples.env_old BioBased)
    = (samples.built samples.env_old BioBased,
       Raise (AttributeError "next_bio")) /\
  (exists name,
     __next__ samples.env_old BioBased (samples.built samples.env_old BioBased)
       = (samples.built samples.env_old BioBased,
          Raise (AttributeError name))) /\
  interpret samples.env_old BioBased (samples.built samples.env_old BioBased)
    = ((samples.interpreted samples.env_old BioBased).1, Ok tt) /\
  (exists tio,
     getattr "tio" (samples.interpreted samples.env_old BioBased).1
       = ((samples.interpreted samples.env_old BioBased).1, Ok (PyValue tio))) /\
  exists next_bio,
    getattr "next_bio" (samples.interpreted samples.env_old BioBased).1
      = ((samples.interpreted samples.env_old BioBased).1,
         Ok (PyValue next_bio)) /\
    __next__ samples.env_old BioBased
      (samples.interpreted samples.env_old BioBased).1
      = call_decode_bio samples.env_old next_bio
          (samples.interpreted samples.env_old BioBased).1.
Proof.
  assert (interpret samples.env_old BioBased
            (samples.built samples.env_old BioBased)
          = ((samples.interpreted samples.env_old BioBased).1, Ok tt)) as Hint
    by by_compute.
  destruct (derived_fields_need_interpret samples.env_old BioBased samples.bio
              loaded (world (samples.built samples.env_old BioBased))
              (self (samples.built samples.env_old BioBased)))
    as (H1 & H2 & H3 & H4); [reflexivity|by_compute|].
  destruct (H4 _ Hint) as (H5 & H6).
  exact (conj H1 (conj H2 (conj H3 (conj Hint (conj H5 H6))))).
Defined.

(** *** Where the code departs from its description *)

Lemma new_keeps_classes env v bio w w' d :
  new env v bio w = (w', Ok d) -> classes w' = classes w.
Proof. intros H. by apply new_uninterpreted in H as (Hc & _). Qed.

(** Every construction that returns has probed: in a session whose
    class namespaces are as loaded, it adds one probe to the record. *)
Lemma new_probes_again env v bio w w' d :
  classes w = classes loaded ->
  new env v bio w = (w', Ok d) ->
  probes w' = (probes w ++ [(gdb.Tstruct (probed_struct v), "clone")])%list.
Proof.
  intros Hc Hnew. apply new_frame in Hnew. revert Hnew.
  destruct v; unfold __init__, ClonedBioReqDecoder__init__,
    ClonedBioDecoder__init__, Decoder__init__.
  - run_with reflexivity. run_with reflexivity.
    run_with (class_attr Hc). simpl.
    run_with (class_attr Hc).
    unfold Types_getattr. simpl.
    case_bool_decide; [|erewrite bind_raise by reflexivity; by intros [=]].
    run_with reflexivity. run_with reflexivity.
    unfold contains. run_with reflexivity. simpl.
    case_bool_decide; (run_with (class_attr Hc)); by intros [= <- _].
  - run_with reflexivity. run_with reflexivity.
    run_with (class_attr Hc). simpl.
    run_with (class_attr Hc).
    unfold Types_getattr. simpl.
    case_bool_decide; [|erewrite bind_raise by reflexivity; by intros [=]].
    run_with reflexivity. run_with reflexivity.
    unfold contains. run_with reflexivity. simpl.
    case_bool_decide; (run_with (class_attr Hc)); by intros [= <- _].
Qed.

Lemma tio_3_15_never_returns env bio fr :
  classes (world fr) = classes loaded ->
  class_ (self fr) = "ClonedBioDecoder" ->
  dict (self fr) !! "_types" = None ->
  exists e, _get_clone_bio_tio_3_15 env bio fr = (fr, Raise e).
Proof.
  intros Hc Hcl Hd. unfold _get_clone_bio_tio_3_15.
  destruct (gdb.getitem (target env) bio "bi_private") as [private|e].
  - run_with reflexivity.
    run_with (apply getattr_class; [exact Hd|rewrite Hc, Hcl; reflexivity]).
    by eexists.
  - by eexists.
Qed.

Lemma req_str_returns_None env fr fr' r :
  ClonedBioReqDecoder__str__ env fr = (fr', Ok r) -> r = PyNone.
Proof.
  unfold ClonedBioReqDecoder__str__. intros H.
  repeat (apply bind_Ok in H as (? & ? & _ & H)).
  by injection H as _ <-.
Qed.

(** C1: the layout probe is meant to run once per variant and session.
    The constructor keeps the chosen getter on the instance, the class
    attribute stays [None], and the next construction probes again: two
    constructions record two probes, for either variant. *)
Theorem probe_runs_on_every_construction v :
  let r := samples.construct_twice samples.env_old v loaded in
  returned r.2 = true /\
  probes r.1 = [(gdb.Tstruct (probed_struct v), "clone");
                (gdb.Tstruct (probed_struct v), "clone")] /\
  classes r.1 = classes loaded.
Proof. destruct v; cbv zeta; by_compute. Qed.

(** C4: on a kernel whose [dm_target_io] embeds the clone, the probe
    selects [_get_clone_bio_tio_3_15], and [interpret] then raises
    [AttributeError]: the getter asks [_types] for
    [dm_clone_bio_info_p_type], which the class never declared.  Neither
    [tio] nor [next_bio] is set. *)
Theorem bio_clone_embedded_layout_raises :
  let r := samples.interpreted samples.env_new BioBased in
  returned (new samples.env_new BioBased samples.bio loaded).2 = true /\
  dict (self (samples.built samples.env_new BioBased)) !! "_get_clone_bio_tio"
    = Some (PyMethod "_get_clone_bio_tio_3_15") /\
  r.2 = Raise (AttributeError "dm_clone_bio_info_p_type") /\
  dict (self r.1) !! "tio" = None /\
  dict (self r.1) !! "next_bio" = None.
Proof. cbv zeta. by_compute. Qed.

(** C5: the description of an interpreted request-based decoder is
    [None], not a string: [__str__] formats the line and drops it.  The
    bio-based decoder on the same image returns its line. *)
Theorem request_based_description_is_None :
  let req := samples.interpreted samples.env_old RequestBased in
  let bio := samples.interpreted samples.env_old BioBased in
  req.2 = Ok tt /\
  (__str__ samples.env_old RequestBased req.1).2 = Ok PyNone /\
  bio.2 = Ok tt /\
  (__str__ samples.env_old BioBased bio.1).2
    = Ok (PyStr "1000 bio: device mapper clone: dm-0[8] -> sda[4104]").
Proof. cbv zeta. by_compute. Qed.

End device_mapper_facts.

(** ** Register recovery: failures, invariants and repetition *)

Module x86_64_more.
Import x86_64 gdb_facts x86_64_facts.

(** X1: the architecture is constructed exactly when the minimal symbol
    [thread_return] and the type [unsigned long] both resolve; [rip] is
    then the symbol's address and [ulong_type] the resolved type. *)
Theorem init_returns_iff g self :
  init g = Ok self <->
  gdb.lookup_minimal_symbol g "thread_return" = Some (rip self) /\
  gdb.types g !! "unsigned long" = Some (ulong_type self).
Proof.
  unfold init, gdb.lookup_type.
  destruct (gdb.lookup_minimal_symbol g "thread_return") as [addr|]; simpl.
  - destruct (gdb.types g !! "unsigned long") as [t|]; simpl.
    + split.
      * by intros [= <-].
      * intros [[= ->] [= ->]]. by destruct self.
    + split; [discriminate|by intros [_ ?]].
  - split; [discriminate|by intros [? _]].
Qed.

(** *** What the operations keep *)

Lemma keeps_bind {S A B} (P : S -> Prop) (m : M S A) (k : A -> M S B) :
  keeps P m -> (forall a, keeps P (k a)) -> keeps P (bind m k).
Proof.
  intros Hm Hk s HP. unfold bind. specialize (Hm s HP).
  destruct (m s) as [s1 [a|e]]; simpl in *; [by apply Hk|done].
Qed.

Lemma keeps_ret {S A} (P : S -> Prop) (a : A) : keeps P (ret a).
Proof. by intros s. Qed.

Lemma keeps_raise {S A} (P : S -> Prop) e : keeps P (@raise S A e).
Proof. by intros s. Qed.

Lemma keeps_lift {S A} (P : S -> Prop) (r : Result A) : keeps P (lift r).
Proof. by intros s. Qed.

Lemma keeps_get {S} (P : S -> Prop) : keeps P get.
Proof. by intros s. Qed.

Lemma keeps_for_each {S A} (P : S -> Prop) (xs : list A) (body : A -> M S unit) :
  (forall x, keeps P (body x)) -> keeps P (for_each xs body).
Proof.
  intros Hb. induction xs as [|x xs IH]; simpl; [apply keeps_ret|].
  apply keeps_bind; [apply Hb|by intros _].
Qed.

Lemma set_register_keeps_bank t d reg v :
  keeps (fun th => info th = t /\ dom (registers th) = d) (set_register reg v).
Proof.
  intros th [Hi Hd]. unfold set_register.
  destruct (registers th !! reg) as [o|] eqn:E; simpl; [|done].
  split; [done|]. by rewrite dom_insert_lookup_L.
Qed.

Lemma setup_thread_active_keeps_bank t d self :
  keeps (fun th => info th = t /\ dom (registers th) = d)
        (setup_thread_active self).
Proof.
  unfold setup_thread_active. apply keeps_bind; [apply keeps_get|intros ?].
  apply keeps_for_each. intros reg.
  case_bool_decide; [apply keeps_ret|].
  case_match; [apply set_register_keeps_bank|apply keeps_raise].
Qed.

Lemma setup_thread_scheduled_keeps_bank t d g self :
  keeps (fun th => info th = t /\ dom (registers th) = d)
        (setup_thread_scheduled g self).
Proof.
  unfold setup_thread_scheduled.
  repeat first
    [ apply keeps_get
    | apply keeps_lift
    | apply set_register_keeps_bank
    | apply keeps_bind; [|intros ?] ].
Qed.

(** X2: neither operation adds a register to the bank or removes one,
    and neither changes the task behind the thread, whether it returns
    or raises. *)
Theorem setup_keeps_bank_shape g self th :
  (info (setup_thread_active self th).1 = info th /\
   dom (registers (setup_thread_active self th).1) = dom (registers th)) /\
  (info (setup_thread_scheduled g self th).1 = info th /\
   dom (registers (setup_thread_scheduled g self th).1) = dom (registers th)).
Proof.
  split.
  - by apply (setup_thread_active_keeps_bank (info th) (dom (registers th))).
  - by apply (setup_thread_scheduled_keeps_bank (info th) (dom (registers th))).
Qed.

(** *** A register the bank does not have *)

Lemma for_each_app {S A} (xs ys : list A) (body : A -> M S unit) s :
  for_each (xs ++ ys) body s
  = bind (for_each xs body) (fun _ => for_each ys body) s.
Proof.
  revert s. induction xs as [|x xs IH]; intros s; simpl; [done|].
  unfold bind in *. destruct (body x s) as [s1 [[]|e]]; [|done].
  by rewrite IH.
Qed.

Lemma setup_thread_active_run self th :
  NoDup (dict_keys (regs (info th))) ->
  Forall (fun r => r ∈ excluded \/ is_Some (registers th !! r))
         (dict_keys (regs (info th))) ->
  setup_thread_active self th =
    ({| info := info th;
        registers := assign (registers th) (copied (regs (info th)));
        written := written th ++ copied (regs (info th)) |}, Ok tt).
Proof.
  intros Hnd Hbank. unfold setup_thread_active, bind at 1, get.
  apply for_each_copy; [|done].
  intros k v Hin. by apply dict_get_elem.
Qed.

(** X3: when the snapshot holds a register, not on the exclusion list,
    that the bank does not have, [setup_thread_active] raises [KeyError]
    for it; the registers before it in the snapshot have been copied,
    those after it have not. *)
Theorem setup_thread_active_missing_register self th pre k v post :
  regs (info th) = (pre ++ (k, v) :: post)%list ->
  NoDup (dict_keys (regs (info th))) ->
  Forall (fun r => r ∈ excluded \/ is_Some (registers th !! r)) (dict_keys pre) ->
  k ∉ excluded ->
  registers th !! k = None ->
  setup_thread_active self th =
    ({| info := info th;
        registers := assign (registers th) (copied pre);
        written := written th ++ copied pre |}, Raise (KeyError k)).
Proof.
  intros Hregs Hnd Hpre Hk Hmiss.
  assert (Hkeys : dict_keys (regs (info th))
                  = (dict_keys pre ++ k :: dict_keys post)%list).
  { rewrite Hregs. unfold dict_keys. by rewrite fmap_app. }
  assert (Hkpre : k ∉ dict_keys pre).
  { rewrite Hkeys in Hnd. apply NoDup_app in Hnd as (_ & Hdis & _).
    intros Hin. apply (Hdis k Hin). by left. }
  unfold setup_thread_active, bind at 1, get. rewrite Hkeys, for_each_app.
  erewrite device_mapper_facts.bind_run.
  2:{ apply for_each_copy; [|exact Hpre].
      intros k' v' Hin. apply dict_get_elem; [done|].
      rewrite Hregs. apply elem_of_app. by left. }
  simpl. unfold bind at 1. rewrite bool_decide_eq_false_2 by done.
  rewrite (dict_get_elem _ k v Hnd)
    by (rewrite Hregs; apply elem_of_app; right; by left).
  unfold set_register. simpl.
  rewrite assign_absent; [by rewrite Hmiss|].
  intros Hin. by apply copied_keys_subset in Hin as [? _].
Qed.

Lemma setup_thread_active_missing_register_witness :
  setup_thread_active samples.arch samples.thread_small_bank =
    ({| info := samples.task;
        registers := <["rip" := Some 0xffffffff81000010]>
                       (<["rax" := Some 1]> samples.small_bank);
        written := [("rax", 1); ("rip", 0xffffffff81000010)] |},
     Raise (KeyError "rsp")).
Proof.
  apply (setup_thread_active_missing_register samples.arch
           samples.thread_small_bank
           [("rax", 1); ("rip", 0xffffffff81000010); ("rflags", 0x246);
            ("gs_base", 0xffff88003fc00000)]
           "rsp" 0x20040 [("orig_ax", 59); ("cs", 16)]).
  - reflexivity.
  - by_compute.
  - by_compute.
  - by_compute.
  - by_compute.
Defined.

(** *** Running an operation again *)

Lemma assign_is_Some m ws r :
  is_Some (m !! r) -> is_Some (assign m ws !! r).
Proof.
  revert m. induction ws as [|[k v] ws IH]; intros m Hm; [done|].
  unfold assign. simpl. apply IH. apply lookup_insert_is_Some'. by right.
Qed.

Lemma assign_again m ws :
  NoDup (dict_keys ws) -> assign (assign m ws) ws = assign m ws.
Proof.
  intros Hnd. apply map_eq. intros r.
  destruct (decide (r ∈ dict_keys ws)) as [Hin|Hout].
  - apply list_elem_of_fmap in Hin as [[r' v] [-> Hin]]. simpl.
    by rewrite !(assign_once _ _ _ _ Hnd Hin).
  - by rewrite !assign_absent.
Qed.

(** X4: [setup_thread_active] can be run again: the second run assigns
    the same registers once more and leaves the bank as the first run
    left it. *)
Theorem setup_thread_active_twice self th :
  NoDup (dict_keys (regs (info th))) ->
  Forall (fun r => r ∈ excluded \/ is_Some (registers th !! r))
         (dict_keys (regs (info th))) ->
  exists th1 th2,
    setup_thread_active self th = (th1, Ok tt) /\
    setup_thread_active self th1 = (th2, Ok tt) /\
    registers th2 = registers th1 /\
    written th2 = (written th1 ++ copied (regs (info th)))%list.
Proof.
  intros Hnd Hbank. eexists _, _.
  split; [by apply setup_thread_active_run|].
  split; [apply setup_thread_active_run; simpl; [done|]|].
  - eapply Forall_impl; [exact Hbank|]. simpl.
    intros r [?|?]; [by left|right]. by apply assign_is_Some.
  - simpl. split; [|done]. apply assign_again. by apply copied_NoDup.
Qed.

Lemma setup_thread_active_twice_witness :
  exists th1 th2,
    setup_thread_active samples.arch samples.thread = (th1, Ok tt) /\
    setup_thread_active samples.arch th1 = (th2, Ok tt) /\
    registers th2 = registers th1 /\
    written th2 = (written th1 ++ copied (regs (info samples.thread)))%list.
Proof. apply setup_thread_active_twice; by_compute. Defined.

(** X5: a task whose saved context has no [thread.sp] to read (the
    member is missing, or unreadable) makes [setup_thread_scheduled]
    raise that error before it assigns any register. *)
Theorem setup_thread_scheduled_lookup_error g self th e :
  (try t <- gdb.getitem g (task_struct (info th)) "thread";
   gdb.getitem g t "sp") = Raise e ->
  setup_thread_scheduled g self th = (th, Raise e).
Proof.
  intros H. unfold setup_thread_scheduled, bind, get, lift. simpl.
  destruct (gdb.getitem g (task_struct (info th)) "thread") as [t|e'];
    simpl in *; [|by injection H as ->].
  by rewrite H.
Qed.

Lemma setup_thread_scheduled_lookup_error_witness :
  setup_thread_scheduled samples.image_skewed samples.arch samples.thread
  = (samples.thread, Raise (GdbError "sp")).
Proof. by apply setup_thread_scheduled_lookup_error. Defined.

(** X6: [setup_thread_scheduled] can be run again on the thread it
    returned: the image has not changed, so the second run returns too
    and leaves the bank as the first run left it. *)
Theorem setup_thread_scheduled_twice g self th sp fp rbx r12 r13 r14 r15 :
  ulong_type self = gdb.Tulong ->
  parked g th sp fp rbx r12 r13 r14 r15 ->
  has_registers th scheduled_registers ->
  exists th1 th2,
    setup_thread_scheduled g self th = (th1, Ok tt) /\
    setup_thread_scheduled g self th1 = (th2, Ok tt) /\
    registers th2 = registers th1.
Proof.
  intros Hul ([ty Hsp] & Hfp & H1 & H2 & H3 & H4 & H5) Hbank.
  unfold has_registers in Hbank. rewrite Forall_forall in Hbank.
  eexists _, _. split; [eapply setup_thread_scheduled_run; eauto|].
  split.
  - eapply setup_thread_scheduled_run; eauto. simpl.
    intros r Hr. repeat (apply lookup_insert_is_Some'; right). by apply Hbank.
  - simpl.
    repeat (rewrite (insert_id (<[_ := _]> _)); [|by simplify_map_eq]).
    reflexivity.
Qed.

Lemma setup_thread_scheduled_twice_witness :
  exists th1 th2,
    setup_thread_scheduled samples.image_old samples.arch samples.thread
      = (th1, Ok tt) /\
    setup_thread_scheduled samples.image_old samples.arch th1 = (th2, Ok tt) /\
    registers th2 = registers th1.
Proof.
  apply (setup_thread_scheduled_twice samples.image_old samples.arch
           samples.thread 0x20000 0x20100 11 12 13 14 15).
  - reflexivity.
  - exact sample_parked.
  - exact sample_has_registers.
Defined.

End x86_64_more.

(** ** The decoders: selection, effects and failures *)

Module device_mapper_more.
Import py device_mapper gdb_facts device_mapper_facts.

(** *** What the constructor chooses *)

Lemma new_selects env v bio w :
  classes w = classes loaded ->
  is_Some (gdb.structs (target env) !! probed_struct v) ->
  new env v bio w =
    ({| classes := classes w;
        probes := probes w ++ [(gdb.Tstruct (probed_struct v), "clone")] |},
     Ok {| class_ := class_name v;
           dict :=
             <[getter_attr v :=
                 PyMethod
                   (if bool_decide
                         (is_Some (gdb.find_field (target env)
                                     (probed_struct v) "clone"))
                    then new_getter v else old_getter v)]>
             (<["bio" := PyValue bio]> ∅) |}).
Proof.
  intros Hc Hres.
  destruct v; unfold new, __init__, ClonedBioReqDecoder__init__,
    ClonedBioDecoder__init__, Decoder__init__; simpl in Hres.
  - run_with reflexivity. run_with reflexivity.
    run_with (class_attr Hc). simpl.
    run_with (class_attr Hc).
    unfold Types_getattr. simpl. rewrite (bool_decide_eq_true_2 _ Hres).
    run_with reflexivity. run_with reflexivity.
    unfold contains. run_with reflexivity. simpl.
    case_bool_decide; (run_with (class_attr Hc)); reflexivity.
  - run_with reflexivity. run_with reflexivity.
    run_with (class_attr Hc). simpl.
    run_with (class_attr Hc).
    unfold Types_getattr. simpl. rewrite (bool_decide_eq_true_2 _ Hres).
    run_with reflexivity. run_with reflexivity.
    unfold contains. run_with reflexivity. simpl.
    case_bool_decide; (run_with (class_attr Hc)); reflexivity.
Qed.

(** X7: in a session whose class namespaces are as loaded and whose
    debug information has the variant's tracking structure, the
    constructor returns a decoder with two attributes of its own, [bio]
    and the getter, and the getter is the back-calculating one exactly
    when the structure has a member [clone]; one probe is recorded. *)
Theorem constructor_selects_getter env v bio w :
  classes w = classes loaded ->
  is_Some (gdb.structs (target env) !! probed_struct v) ->
  new env v bio w =
    ({| classes := classes w;
        probes := probes w ++ [(gdb.Tstruct (probed_struct v), "clone")] |},
     Ok {| class_ := class_name v;
           dict :=
             <[getter_attr v :=
                 PyMethod
                   (if bool_decide
                         (is_Some (gdb.find_field (target env)
                                     (probed_struct v) "clone"))
                    then new_getter v else old_getter v)]>
             (<["bio" := PyValue bio]> ∅) |}).
Proof. apply new_selects. Qed.

Lemma constructor_selects_getter_witness :
  new samples.env_new RequestBased samples.bio loaded =
    ({| classes := classes loaded;
        probes := [(gdb.Tstruct "dm_rq_clone_bio_info", "clone")] |},
     Ok {| class_ := "ClonedBioReqDecoder";
           dict := <["_get_clone_bio_rq_info" :=
                       PyMethod "_get_clone_bio_rq_info_3_7"]>
                   (<["bio" := PyValue samples.bio]> ∅) |}).
Proof.
  apply (constructor_selects_getter samples.env_new RequestBased samples.bio
           loaded).
  - reflexivity.
  - by_compute.
Defined.

(** X8: a constructor never changes a class namespace, whether it
    returns or raises: what it learns from the probe is not kept where
    the next decoder of the class would find it. *)
Theorem constructor_keeps_classes env v bio w :
  classes (new env v bio w).1 = classes w.
Proof.
  pose proof (uninterpreted_init env v bio (classes w)
    {| world := w; self := {| class_ := class_name v; dict := ∅ |} |}) as H.
  unfold new.
  destruct (__init__ _ _ _ _) as [fr [[]|e]]; simpl in *;
    by apply H.
Qed.

(** X9: every construction that returns has probed: in a session whose
    class namespaces are as loaded, it adds exactly one probe of the
    variant's tracking structure to those made before. *)
Theorem construction_always_probes env v bio w w' d :
  classes w = classes loaded ->
  new env v bio w = (w', Ok d) ->
  probes w' = (probes w ++ [(gdb.Tstruct (probed_struct v), "clone")])%list.
Proof. apply new_probes_again. Qed.

Lemma construction_always_probes_witness :
  probes (samples.built samples.env_new BioBased).(world)
  = [(gdb.Tstruct "dm_target_io", "clone")].
Proof.
  apply (construction_always_probes samples.env_new BioBased samples.bio
           loaded _ (self (samples.built samples.env_new BioBased))).
  - reflexivity.
  - by_compute.
Defined.

(** *** The bio-based decoder on the layout without an embedded clone *)

Lemma tio_old_run env bio fr ty p :
  classes (world fr) = classes loaded ->
  class_ (self fr) = "ClonedBioDecoder" ->
  dict (self fr) !! "_types" = None ->
  is_Some (gdb.structs (target env) !! "dm_target_io") ->
  gdb.getitem (target env) bio "bi_private" = Ok (gdb.Scalar ty p) ->
  _get_clone_bio_tio_old env bio fr =
    (fr, Ok (gdb.Scalar (gdb.Tptr (gdb.Tstruct "dm_target_io")) p)).
Proof.
  intros Hc Hcl Hd Hres Hpriv.
  pose proof (getitem_scalar_wrapped _ _ _ _ _ Hpriv) as Hp.
  unfold _get_clone_bio_tio_old. rewrite Hpriv.
  run_with reflexivity.
  run_with (apply getattr_class; [exact Hd|rewrite Hc, Hcl; reflexivity]).
  unfold Types_getattr. simpl. rewrite (bool_decide_eq_true_2 _ Hres).
  run_with reflexivity. simpl. by rewrite Hp.
Qed.

(** X13: for a bio-based clone on a kernel whose [dm_target_io] has no
    member [clone], [interpret] makes the decoder's [tio] the pointer
    held in the bio's [bi_private], cast to [struct dm_target_io *], and
    its [next_bio] the [bio] member of the [io] that [tio] points to;
    [advance] returns what [decode_bio] makes of that bio. *)
Theorem bio_clone_old_layout env bio w ty p io next_bio :
  classes w = classes loaded ->
  is_Some (gdb.structs (target env) !! "dm_target_io") ->
  gdb.find_field (target env) "dm_target_io" "clone" = None ->
  gdb.getitem (target env) bio "bi_private" = Ok (gdb.Scalar ty p) ->
  gdb.getitem (target env)
    (gdb.Scalar (gdb.Tptr (gdb.Tstruct "dm_target_io")) p) "io" = Ok io ->
  gdb.getitem (target env) io "bio" = Ok next_bio ->
  exists w1 d fr,
    new env BioBased bio w = (w1, Ok d) /\
    interpret env BioBased {| world := w1; self := d |} = (fr, Ok tt) /\
    getattr "tio" fr =
      (fr, Ok (PyValue (gdb.Scalar (gdb.Tptr (gdb.Tstruct "dm_target_io")) p))) /\
    getattr "next_bio" fr = (fr, Ok (PyValue next_bio)) /\
    __next__ env BioBased fr = call_decode_bio env next_bio fr.
Proof.
  intros Hc Hres Hno Hpriv Hio Hbio.
  eexists _, _, _. split; [by apply new_selects|].
  simpl. rewrite Hno. rewrite bool_decide_eq_false_2 by (intros [? [=]]).
  split.
  - unfold interpret, ClonedBioDecoder_interpret.
    run_with (apply getattr_own; simpl; by simplify_map_eq).
    run_with (apply getattr_value_own; simpl; by simplify_map_eq).
    unfold call_tio. rewrite bool_decide_eq_true_2 by reflexivity.
    run_with (eapply tio_old_run; simpl; eauto; by simplify_map_eq).
    run_with reflexivity.
    run_with (apply getattr_value_own; simpl; by simplify_map_eq).
    rewrite Hio. run_with reflexivity.
    rewrite Hbio. run_with reflexivity.
    rewrite setattr_run. reflexivity.
  - split; [apply getattr_own; simpl; by simplify_map_eq|].
    split; [apply getattr_own; simpl; by simplify_map_eq|].
    unfold __next__, ClonedBioDecoder__next__.
    by run_with (apply getattr_value_own; simpl; by simplify_map_eq).
Qed.

Lemma bio_clone_old_layout_witness :
  exists w1 d fr,
    new samples.env_old BioBased samples.bio loaded = (w1, Ok d) /\
    interpret samples.env_old BioBased {| world := w1; self := d |}
      = (fr, Ok tt) /\
    getattr "tio" fr =
      (fr, Ok (PyValue (gdb.Scalar (gdb.Tptr (gdb.Tstruct "dm_target_io"))
                          0x2000))) /\
    getattr "next_bio" fr =
      (fr, Ok (PyValue (gdb.Scalar (gdb.Tptr (gdb.Tstruct "bio")) 0x4000))) /\
    __next__ samples.env_old BioBased fr =
      call_decode_bio samples.env_old
        (gdb.Scalar (gdb.Tptr (gdb.Tstruct "bio")) 0x4000) fr.
Proof.
  apply (bio_clone_old_layout samples.env_old samples.bio loaded
           (gdb.Tptr gdb.Tvoid) 0x2000
           (gdb.Scalar (gdb.Tptr (gdb.Tstruct "dm_io")) 0x3000)).
  - reflexivity.
  - by_compute.
  - by_compute.
  - by_compute.
  - by_compute.
  - by_compute.
Defined.

(** *** Where the getter for the embedded clone leads *)

Lemma find_field_resolved g tag name :
  is_Some (gdb.find_field g tag name) -> is_Some (gdb.structs g !! tag).
Proof.
  unfold gdb.find_field, gdb.fields.
  destruct (gdb.structs g !! tag); [by eexists|]. simpl. by intros [? [=]].
Qed.

(** X14: on a kernel whose [dm_target_io] has a member [clone], no
    bio-based decoder can be interpreted: the constructor returns it
    with the back-calculating getter, and [interpret] raises without
    changing the decoder. *)
Theorem embedded_bio_clone_never_interprets env bio w :
  classes w = classes loaded ->
  is_Some (gdb.find_field (target env) "dm_target_io" "clone") ->
  exists w1 d e,
    new env BioBased bio w = (w1, Ok d) /\
    interpret env BioBased {| world := w1; self := d |}
      = ({| world := w1; self := d |}, Raise e).
Proof.
  intros Hc Hclone.
  pose proof (find_field_resolved _ _ _ Hclone) as Hres.
  pose proof (new_selects env BioBased bio w Hc Hres) as Hnew.
  simpl in Hnew. rewrite (bool_decide_eq_true_2 _ Hclone) in Hnew.
  match type of Hnew with
  | _ = (?w1, Ok ?d) =>
      destruct (tio_3_15_never_returns env bio {| world := w1; self := d |})
        as [e He]; [done|done|by simplify_map_eq|];
      exists w1, d, e
  end.
  split; [exact Hnew|].
  unfold interpret, ClonedBioDecoder_interpret.
  run_with (apply getattr_own; simpl; by simplify_map_eq).
  run_with (apply getattr_value_own; simpl; by simplify_map_eq).
  unfold call_tio. rewrite bool_decide_eq_false_2 by discriminate.
  rewrite bool_decide_eq_true_2 by reflexivity.
  by erewrite bind_raise by exact He.
Qed.

Lemma embedded_bio_clone_never_interprets_witness :
  exists w1 d e,
    new samples.env_new BioBased samples.bio loaded = (w1, Ok d) /\
    interpret samples.env_new BioBased {| world := w1; self := d |}
      = ({| world := w1; self := d |}, Raise e).
Proof.
  apply (embedded_bio_clone_never_interprets samples.env_new samples.bio loaded).
  - reflexivity.
  - by_compute.
Defined.

(** *** What the operations leave alone *)

Lemma unchanged_setattr_world w name v :
  preserves (fun fr => world fr = w) (setattr name v).
Proof. by intros fr. Qed.

Lemma call_rq_info_keeps env P f bio :
  preserves P (call_rq_info env f bio).
Proof.
  unfold call_rq_info, _get_clone_bio_rq_info_old, _get_clone_bio_rq_info_3_7.
  destruct f; keep.
Qed.

Lemma call_tio_keeps env P f bio :
  preserves P (call_tio env f bio).
Proof.
  unfold call_tio, _get_clone_bio_tio_old, _get_clone_bio_tio_3_15.
  destruct f; keep.
Qed.

Lemma description_preserves env v P : preserves P (__str__ env v).
Proof.
  destruct v; unfold __str__, ClonedBioReqDecoder__str__,
    ClonedBioDecoder__str__; keep.
Qed.

(** X10: the description has no effect: after [__str__], returned or
    raised, the decoder, the class namespaces and the probe record are
    what they were. *)
Theorem description_changes_nothing env v fr :
  (__str__ env v fr).1 = fr.
Proof.
  exact (description_preserves env v (fun fr' => fr' = fr) fr eq_refl).
Qed.

Lemma interpret_preserves_world env v w :
  preserves (fun fr => world fr = w) (interpret env v).
Proof.
  destruct v; unfold interpret, ClonedBioReqDecoder_interpret,
    ClonedBioDecoder_interpret;
    repeat first
      [ apply call_rq_info_keeps
      | apply call_tio_keeps
      | apply unchanged_setattr_world
      | apply preserves_getattr
      | apply preserves_getattr_value
      | apply preserves_lift
      | apply preserves_bind; [|intros ?] ].
Qed.

(** X11: [interpret] makes no probe and changes no class namespace,
    whichever getter it calls and whether it returns or raises. *)
Theorem interpret_keeps_world env v fr :
  world (interpret env v fr).1 = world fr.
Proof. exact (interpret_preserves_world env v (world fr) fr eq_refl). Qed.

Lemma advance_preserves_self env v Q :
  preserves (of_self Q) (__next__ env v).
Proof.
  destruct v; unfold __next__, ClonedBioReqDecoder__next__,
    ClonedBioDecoder__next__; keep.
Qed.

(** X12: [advance] leaves the decoder it is called on as it is: none
    of its attributes is assigned, whatever [decode_bio] does. *)
Theorem advance_keeps_decoder env v fr :
  self (__next__ env v fr).1 = self fr.
Proof.
  exact (advance_preserves_self env v (fun o => o = self fr) fr eq_refl).
Qed.

(** *** What the description returns, and when it raises *)

(** X15: the description of a bio-based decoder whose [bio] and
    [next_bio] are readable is one line: the bio's address in
    hexadecimal, then [bio: device mapper clone:], then the device name
    and sector of the clone and, after an arrow, those of its ancestor. *)
Theorem bio_description_line env fr bio next_bio addr bdev name sector_v sector
    next_bdev next_name next_sector_v next_sector :
  classes (world fr) = classes loaded ->
  class_ (self fr) = "ClonedBioDecoder" ->
  dict (self fr) !! "_description" = None ->
  dict (self fr) !! "bio" = Some (PyValue bio) ->
  dict (self fr) !! "next_bio" = Some (PyValue next_bio) ->
  gdb.to_int bio = Ok addr ->
  gdb.getitem (target env) bio "bi_bdev" = Ok bdev ->
  block_device_name env bdev = Ok name ->
  gdb.getitem (target env) bio "bi_sector" = Ok sector_v ->
  gdb.to_int sector_v = Ok sector ->
  gdb.getitem (target env) next_bio "bi_bdev" = Ok next_bdev ->
  block_device_name env next_bdev = Ok next_name ->
  gdb.getitem (target env) next_bio "bi_sector" = Ok next_sector_v ->
  gdb.to_int next_sector_v = Ok next_sector ->
  __str__ env BioBased fr =
    (fr, Ok (PyStr (hex_of_int addr +:+ " bio: device mapper clone: " +:+
                    name +:+ "[" +:+ str_of_int sector +:+ "] -> " +:+
                    next_name +:+ "[" +:+ str_of_int next_sector +:+ "]"))).
Proof.
  intros Hc Hcl Hd Hbio Hnext Haddr Hbdev Hname Hsec Hsecv Hnbdev Hnname
    Hnsec Hnsecv.
  unfold __str__, ClonedBioDecoder__str__.
  run_with (apply getattr_class; [exact Hd|rewrite Hc, Hcl; reflexivity]).
  run_with (by apply getattr_value_own). rewrite Haddr. run_with reflexivity.
  run_with (by apply getattr_value_own). rewrite Hbdev. run_with reflexivity.
  rewrite Hname. run_with reflexivity.
  run_with (by apply getattr_value_own). rewrite Hsec. run_with reflexivity.
  rewrite Hsecv. run_with reflexivity.
  run_with (by apply getattr_value_own). rewrite Hnbdev. run_with reflexivity.
  rewrite Hnname. run_with reflexivity.
  run_with (by apply getattr_value_own). rewrite Hnsec. run_with reflexivity.
  rewrite Hnsecv. run_with reflexivity.
  reflexivity.
Qed.

Lemma bio_description_line_witness :
  __str__ samples.env_old BioBased
    (samples.interpreted samples.env_old BioBased).1 =
    ((samples.interpreted samples.env_old BioBased).1,
     Ok (PyStr (hex_of_int 0x1000 +:+ " bio: device mapper clone: " +:+
                "dm-0" +:+ "[" +:+ str_of_int 8 +:+ "] -> " +:+
                "sda" +:+ "[" +:+ str_of_int 4104 +:+ "]"))).
Proof.
  apply (bio_description_line samples.env_old
           (samples.interpreted samples.env_old BioBased).1
           samples.bio (gdb.Scalar (gdb.Tptr (gdb.Tstruct "bio")) 0x4000)
           0x1000 (gdb.Scalar (gdb.Tptr (gdb.Tstruct "block_device")) 0x5000)
           "dm-0" (gdb.Scalar gdb.Tulong 8) 8
           (gdb.Scalar (gdb.Tptr (gdb.Tstruct "block_device")) 0x5100)
           "sda" (gdb.Scalar gdb.Tulong 4104) 4104); by_compute.
Defined.

(** X16: whenever the description of a request-based decoder returns,
    it returns [None]: the line it formats is never the result. *)
Theorem request_description_returns_None env fr fr' r :
  __str__ env RequestBased fr = (fr', Ok r) -> r = PyNone.
Proof. apply req_str_returns_None. Qed.

Lemma request_description_returns_None_witness :
  exists fr' r,
    __str__ samples.env_old RequestBased
      (samples.interpreted samples.env_old RequestBased).1 = (fr', Ok r) /\
    r = PyNone.
Proof.
  assert (__str__ samples.env_old RequestBased
            (samples.interpreted samples.env_old RequestBased).1
          = ((samples.interpreted samples.env_old RequestBased).1, Ok PyNone))
    as E by by_compute.
  exists (samples.interpreted samples.env_old RequestBased).1, PyNone.
  split; [exact E|].
  exact (request_description_returns_None _ _ _ _ E).
Defined.

(** X17: on a decoder whose [bio] is a structure value and not a
    pointer to one, the description of either variant raises: [int] of a
    structure is an error. *)
Theorem description_of_struct_bio_raises env v fr tag addr :
  dict (self fr) !! "bio" = Some (PyValue (gdb.Struct tag addr)) ->
  exists e, __str__ env v fr = (fr, Raise e).
Proof.
  intros Hbio.
  destruct v; unfold __str__, ClonedBioReqDecoder__str__,
    ClonedBioDecoder__str__;
    (destruct (getattr "_description" fr) as [fr1 [d|e]] eqn:E;
     pose proof (getattr_state _ _ _ _ E) as ->;
     [|eexists; by erewrite bind_raise by exact E]);
    (erewrite bind_run by exact E);
    (erewrite bind_run by (by apply getattr_value_own));
    eexists; by erewrite bind_raise by reflexivity.
Qed.

Lemma description_of_struct_bio_raises_witness :
  exists e,
    __str__ samples.env_old BioBased
      (samples.built_on_struct samples.env_old BioBased)
    = (samples.built_on_struct samples.env_old BioBased, Raise e).
Proof.
  apply (description_of_struct_bio_raises samples.env_old BioBased
           (samples.built_on_struct samples.env_old BioBased) "bio" 0x1000).
  by_compute.
Defined.

(** *** When [interpret] raises *)

Lemma bind_Raise {S A B} (m : M S A) (k : A -> M S B) s s' e :
  bind m k s = (s', Raise e) ->
  m s = (s', Raise e) \/
  exists s1 a, m s = (s1, Ok a) /\ k a s1 = (s', Raise e).
Proof.
  unfold bind. destruct (m s) as [s1 [a|e1]]; [eauto|].
  intros [= -> ->]. by left.
Qed.

Lemma raise_keeps_bind {A B} P (m : M Frame A) (k : A -> M Frame B) :
  preserves P m -> (forall a, raise_keeps P (k a)) -> raise_keeps P (bind m k).
Proof.
  intros Hm Hk fr fr' e HP H. specialize (Hm fr HP).
  apply bind_Raise in H as [H|(fr1 & a & H1 & H)].
  - rewrite H in Hm. exact Hm.
  - rewrite H1 in Hm. eapply Hk; [exact Hm|exact H].
Qed.

Lemma raise_keeps_setattr P name v : raise_keeps P (setattr name v).
Proof. intros fr fr' e _ H. by rewrite setattr_run in H. Qed.

Lemma without_attr_setattr cs cls name name' v :
  name' <> name -> preserves (without_attr cs cls name) (setattr name' v).
Proof.
  intros Hne fr (Hc & Hcl & Hd). repeat split; simpl; [done..|].
  by rewrite lookup_insert_ne.
Qed.

Lemma interpret_raise_keeps env v cs :
  raise_keeps (without_attr cs (class_name v) (last_derived v))
              (interpret env v).
Proof.
  destruct v; unfold interpret, ClonedBioReqDecoder_interpret,
    ClonedBioDecoder_interpret;
    repeat first
      [ apply raise_keeps_setattr
      | apply raise_keeps_bind;
        [first [ apply preserves_getattr
               | apply preserves_getattr_value
               | apply preserves_lift
               | apply call_rq_info_keeps
               | apply call_tio_keeps
               | apply without_attr_setattr; discriminate ]
        |intros ?] ].
Qed.

(** X18: when [interpret] raises on a decoder that has no [tio]
    (request-based) or no [next_bio] (bio-based) yet, the decoder still
    has none afterwards: reading that attribute raises [AttributeError],
    as before the call. *)
Theorem failed_interpret_sets_no_result env v fr fr' e :
  without_attr (classes loaded) (class_name v) (last_derived v) fr ->
  interpret env v fr = (fr', Raise e) ->
  getattr (last_derived v) fr'
  = (fr', Raise (AttributeError (last_derived v))).
Proof.
  intros HP H.
  destruct (interpret_raise_keeps env v _ fr fr' e HP H) as (Hc & Hcl & Hd).
  apply getattr_missing; [done|]. rewrite Hc, Hcl.
  apply no_derived_class_attribute. destruct v; by_compute.
Qed.

Lemma failed_interpret_sets_no_result_witness :
  getattr "next_bio" (samples.interpreted samples.env_new BioBased).1
  = ((samples.interpreted samples.env_new BioBased).1,
     Raise (AttributeError "next_bio")).
Proof.
  apply (failed_interpret_sets_no_result samples.env_new BioBased
           (samples.built samples.env_new BioBased) _
           (AttributeError "dm_clone_bio_info_p_type")).
  - repeat split; by_compute.
  - by_compute.
Defined.

(** *** Interpreting again *)

Lemma reads_ret {A} K (a : A) : reads_off K (ret a).
Proof. by intros fr fr1 _. Qed.

Lemma reads_raise {A} K e : reads_off K (@raise Frame A e).
Proof. by intros fr fr1 _. Qed.

Lemma reads_lift {A} K (r : Result A) : reads_off K (lift r).
Proof. by intros fr fr1 _. Qed.

Lemma reads_if {A} K (b : bool) (m1 m2 : M Frame A) :
  reads_off K m1 -> reads_off K m2 -> reads_off K (if b then m1 else m2).
Proof. by destruct b. Qed.

Lemma reads_bind {A B} K (m : M Frame A) (k : A -> M Frame B) :
  reads_off K m -> (forall a, reads_off K (k a)) -> reads_off K (bind m k).
Proof.
  intros Hm Hk fr fr1 Hag. destruct (Hm fr fr1 Hag) as (H1 & H2 & H3).
  unfold bind. destruct (m fr) as [s r], (m fr1) as [s1 r1]. simpl in *.
  subst. destruct r as [a|e]; [by apply Hk|done].
Qed.

Lemma reads_getattr K name : name ∉ K -> reads_off K (getattr name).
Proof.
  intros Hn fr fr1 (Hw & Hcl & Hd). unfold getattr.
  rewrite (Hd name Hn), Hw, Hcl.
  by repeat case_match.
Qed.

Lemma reads_getattr_value K name : name ∉ K -> reads_off K (getattr_value name).
Proof.
  intros Hn. unfold getattr_value.
  apply reads_bind; [by apply reads_getattr|intros ?; apply reads_lift].
Qed.

Lemma reads_run {A} K (m : M Frame A) fr fr1 s r :
  reads_off K m -> agree_off K fr fr1 -> m fr = (s, r) ->
  s = fr /\ m fr1 = (fr1, r).
Proof.
  intros Hm Hag H. destruct (Hm fr fr1 Hag) as (H1 & H2 & H3).
  rewrite H in H1, H3. simpl in *. split; [done|].
  destruct (m fr1). simpl in *. by subst.
Qed.

Ltac reads :=
  repeat first
    [ apply reads_ret
    | apply reads_raise
    | apply reads_lift
    | apply reads_getattr; by_compute
    | apply reads_getattr_value; by_compute
    | apply reads_if
    | apply reads_bind; [|intros ?] ].

Lemma call_rq_info_reads env f bio :
  reads_off (derived_attrs RequestBased) (call_rq_info env f bio).
Proof.
  unfold call_rq_info, _get_clone_bio_rq_info_old, _get_clone_bio_rq_info_3_7.
  destruct f; reads.
Qed.

Lemma call_tio_reads env f bio :
  reads_off (derived_attrs BioBased) (call_tio env f bio).
Proof.
  unfold call_tio, _get_clone_bio_tio_old, _get_clone_bio_tio_3_15.
  destruct f; reads.
Qed.

Lemma agree_off_refl K fr : agree_off K fr fr.
Proof. by repeat split. Qed.

Lemma agree_off_setattr K fr fr1 name v :
  name ∈ K -> agree_off K fr fr1 -> agree_off K fr (setattr name v fr1).1.
Proof.
  intros Hin (Hw & Hcl & Hd). repeat split; simpl; [done..|].
  intros k Hk. rewrite lookup_insert_ne; [by apply Hd|]. by intros ->.
Qed.

Lemma insert2_again {V} (m : gmap string V) k1 k2 v1 v2 :
  k1 <> k2 ->
  <[k2 := v2]> (<[k1 := v1]> (<[k2 := v2]> (<[k1 := v1]> m)))
  = <[k2 := v2]> (<[k1 := v1]> m).
Proof.
  intros Hne. apply map_eq. intros k.
  destruct (decide (k = k2)) as [->|H2]; [by rewrite !lookup_insert_eq|].
  destruct (decide (k = k1)) as [->|H1]; by simplify_map_eq.
Qed.

(** X19: [interpret] can be called again: on the decoder that a call
    of [interpret] returned, a second call returns too and leaves every
    attribute as it is. *)
Theorem interpret_again env v fr fr1 :
  interpret env v fr = (fr1, Ok tt) ->
  interpret env v fr1 = (fr1, Ok tt).
Proof.
  intros H. destruct v; unfold interpret, ClonedBioReqDecoder_interpret,
    ClonedBioDecoder_interpret in *.
  - apply bind_Ok in H as (s1 & f & H1 & H).
    apply bind_Ok in H as (s2 & bio & H2 & H).
    apply bind_Ok in H as (s3 & info & H3 & H).
    apply bind_Ok in H as (s4 & [] & H4 & H).
    apply bind_Ok in H as (s5 & info' & H5 & H).
    apply bind_Ok in H as (s6 & tio & H6 & H).
    pose proof (getattr_state _ _ _ _ H1) as ->.
    pose proof (getattr_value_state _ _ _ _ H2) as ->.
    destruct (reads_run _ _ _ _ _ _ (call_rq_info_reads env f bio)
                (agree_off_refl _ fr) H3) as [-> _].
    rewrite setattr_run in H4. injection H4 as <-.
    pose proof (getattr_value_state _ _ _ _ H5) as ->.
    apply lift_Ok in H6 as [-> H6].
    rewrite setattr_run in H. injection H as <-. simpl in *.
    assert (info' = info) as ->.
    { erewrite getattr_value_own in H5 by (simpl; by simplify_map_eq).
      by injection H5. }
    match goal with |- _ ?fr1 = _ =>
      assert (agree_off (derived_attrs RequestBased) fr fr1) as Hag
    end.
    { repeat split; simpl. intros k Hk.
      rewrite !lookup_insert_ne; [done|..]; intros <-; apply Hk; by_compute. }
    run_with (eapply reads_run;
              [apply (reads_getattr (derived_attrs RequestBased)); by_compute
              |exact Hag|exact H1]).
    run_with (eapply reads_run;
              [apply (reads_getattr_value (derived_attrs RequestBased));
               by_compute
              |exact Hag|exact H2]).
    run_with (eapply reads_run;
              [apply call_rq_info_reads|exact Hag|exact H3]).
    run_with reflexivity.
    run_with (apply getattr_value_own; simpl; by simplify_map_eq).
    rewrite H6. run_with reflexivity.
    rewrite setattr_run. simpl. by rewrite insert2_again.
  - apply bind_Ok in H as (s1 & f & H1 & H).
    apply bind_Ok in H as (s2 & bio & H2 & H).
    apply bind_Ok in H as (s3 & tio & H3 & H).
    apply bind_Ok in H as (s4 & [] & H4 & H).
    apply bind_Ok in H as (s5 & tio' & H5 & H).
    apply bind_Ok in H as (s6 & io & H6 & H).
    apply bind_Ok in H as (s7 & next_bio & H7 & H).
    pose proof (getattr_state _ _ _ _ H1) as ->.
    pose proof (getattr_value_state _ _ _ _ H2) as ->.
    destruct (reads_run _ _ _ _ _ _ (call_tio_reads env f bio)
                (agree_off_refl _ fr) H3) as [-> _].
    rewrite setattr_run in H4. injection H4 as <-.
    pose proof (getattr_value_state _ _ _ _ H5) as ->.
    apply lift_Ok in H6 as [-> H6]. apply lift_Ok in H7 as [-> H7].
    rewrite setattr_run in H. injection H as <-. simpl in *.
    assert (tio' = tio) as ->.
    { erewrite getattr_value_own in H5 by (simpl; by simplify_map_eq).
      by injection H5. }
    match goal with |- _ ?fr1 = _ =>
      assert (agree_off (derived_attrs BioBased) fr fr1) as Hag
    end.
    { repeat split; simpl. intros k Hk.
      rewrite !lookup_insert_ne; [done|..]; intros <-; apply Hk; by_compute. }
    run_with (eapply reads_run;
              [apply (reads_getattr (derived_attrs BioBased)); by_compute
              |exact Hag|exact H1]).
    run_with (eapply reads_run;
              [apply (reads_getattr_value (derived_attrs BioBased)); by_compute
              |exact Hag|exact H2]).
    run_with (eapply reads_run;
              [apply call_tio_reads|exact Hag|exact H3]).
    run_with reflexivity.
    run_with (apply getattr_value_own; simpl; by simplify_map_eq).
    rewrite H6. run_with reflexivity.
    rewrite H7. run_with reflexivity.
    rewrite setattr_run. simpl. by rewrite insert2_again.
Qed.

Lemma interpret_again_witness :
  interpret samples.env_old BioBased
    (samples.interpreted samples.env_old BioBased).1
  = ((samples.interpreted samples.env_old BioBased).1, Ok tt).
Proof.
  apply (interpret_again samples.env_old BioBased
           (samples.built samples.env_old BioBased)).
  by_compute.
Defined.

(** *** Two more ways to fail *)

(** X20: when the debug information does not have the variant's
    tracking structure, the constructor raises before it probes: no
    decoder is returned and the probe record is as it was. *)
Theorem constructor_needs_the_structure env v bio w :
  classes w = classes loaded ->
  gdb.structs (target env) !! probed_struct v = None ->
  exists e, new env v bio w = (w, Raise e).
Proof.
  intros Hc Hno.
  assert (~ is_Some (gdb.structs (target env) !! probed_struct v)) as Hn
    by (rewrite Hno; by intros [? [=]]).
  destruct w as [cs ps]. simpl in Hc.
  destruct v; unfold new, __init__, ClonedBioReqDecoder__init__,
    ClonedBioDecoder__init__, Decoder__init__; simpl in Hn.
  - run_with reflexivity. run_with reflexivity.
    run_with (class_attr Hc). simpl.
    run_with (class_attr Hc).
    unfold Types_getattr. simpl. rewrite (bool_decide_eq_false_2 _ Hn).
    erewrite bind_raise by reflexivity. by eexists.
  - run_with reflexivity. run_with reflexivity.
    run_with (class_attr Hc). simpl.
    run_with (class_attr Hc).
    unfold Types_getattr. simpl. rewrite (bool_decide_eq_false_2 _ Hn).
    erewrite bind_raise by reflexivity. by eexists.
Qed.

Lemma constructor_needs_the_structure_witness :
  exists e,
    new {| target := {| gdb.structs := ∅;
                        gdb.types := ∅;
                        gdb.minsyms := ∅;
                        gdb.memory := samples.words |};
           block_device_name := samples.device_names;
           decode_bio := samples.decode_generic |}
        RequestBased samples.bio loaded
    = (loaded, Raise e).
Proof.
  apply constructor_needs_the_structure; reflexivity.
Defined.

(** X21: the description of a bio-based decoder needs [interpret]: on
    a decoder that was constructed and not interpreted it raises, and
    leaves the decoder as it is. *)
Theorem bio_description_needs_interpret env fr :
  uninterpreted (classes loaded) "ClonedBioDecoder" fr ->
  exists e, __str__ env BioBased fr = (fr, Raise e).
Proof.
  intros (Hc & Hcl & Hd). unfold __str__, ClonedBioDecoder__str__.
  repeat lazymatch goal with
  | |- exists e, bind (getattr_value "next_bio") _ ?fr = _ =>
      eexists; erewrite bind_raise; [reflexivity|];
      apply getattr_value_missing;
      [apply Hd; by_compute|rewrite Hc, Hcl; reflexivity]
  | |- exists e, bind ?m _ ?fr = (?fr, Raise e) =>
      let E := fresh "E" in
      let Hm := fresh "Hm" in
      let s := fresh "s" in
      assert (preserves (fun x => x = fr) m) as Hm by keep;
      specialize (Hm fr eq_refl);
      destruct (m fr) as [s [?|?]] eqn:E; simpl in Hm; subst s;
      [erewrite bind_run by exact E
      |eexists; by erewrite bind_raise by exact E]
  end.
Qed.

Lemma bio_description_needs_interpret_witness :
  exists e,
    __str__ samples.env_old BioBased (samples.built samples.env_old BioBased)
    = (samples.built samples.env_old BioBased, Raise e).
Proof.
  apply bio_description_needs_interpret.
  apply (new_uninterpreted samples.env_old BioBased samples.bio loaded
           (world (samples.built samples.env_old BioBased))
           (self (samples.built samples.env_old BioBased))).
  by_compute.
Defined.

End device_mapper_more.
